(** * cuepyd: argument-vector construction and outcome classification

    A shallow embedding of [src/cuepyd/__init__.py]: the option-set encoder
    ([Cmd.Flags]), the file and standard-input descriptors ([File], [Stdin]),
    the command builder ([Cmd.cmd]) and the outcome classifier
    ([CalledProcessError]).

    Conventions of the embedding.
    - A Python [str] is a [string] holding the UTF-8 bytes of the text, the
      convention of string literals in this language.  Every string operation
      of the source (concatenation, [join], [rstrip('_')], [replace('_','-')])
      acts on that image exactly as on the text, because the byte of an ASCII
      character never occurs inside a multi-byte sequence.  [str.encode()]
      therefore yields the bytes of the image; [bytes.decode()] fails on byte
      strings that are not well-formed UTF-8.
    - Python [bytes] are [list byte].
    - A raised exception is the left injection of [result]; code with effects
      (spawning the child, printing) runs in [IO], a state-and-error monad in
      which the effects performed before a raise are kept. *)

From Stdlib.Strings Require Import String Ascii Byte.
From Stdlib Require Import List ZArith NArith Bool Lia.
From Stdlib Require Import DecimalString.
Import ListNotations.
Local Open Scope list_scope.
Local Open Scope string_scope.

Set Implicit Arguments.
#[local] Set Warnings "-register-all".

(** ** Python values and types that reach the encoder *)

(** Runtime values an option attribute can hold.  [PObj] stands for any
    object that is not [None], a [bool], a [str] or a [list] (an [int], a
    [tuple], a [dict], ...), identified by its [str()] rendering. *)
Inductive PyVal : Type :=
| PNone
| PBool (b : bool)
| PStr (s : string)
| PList (l : list PyVal)
| PObj (repr : string).

(** The type objects found in [field.type].  [typing] flattens nested unions
    and stores the class [NoneType] for a [None] member. *)
Inductive PyType : Type :=
| Tbool
| Tstr
| TNoneType
| Tlist (a : PyType)
| TUnion (args : list PyType).

(** [strOpt = Optional[str]] *)
Definition strOpt : PyType := TUnion [Tstr; TNoneType].
(** [strListOpt = Optional[Union[str, list[str]]]] *)
Definition strListOpt : PyType := TUnion [Tstr; Tlist Tstr; TNoneType].

(** ** Exceptions *)

Definition bytes := list byte.

Module CalledProcessError_data.
(** The fields of the dataclass [CalledProcessError]. *)
Record t : Type := mk {
  input : bytes;
  args : list string;
  return_code : Z;
  output : bytes;
  error : bytes
}.
End CalledProcessError_data.

Inductive exception : Type :=
| ValueError_invalid (flag : string) (type_ : PyType) (value : PyVal)
    (** [ValueError(f'invalid: {flag}: {type_} = {value}')] *)
| ValueError_return_code_0
    (** [ValueError('Invalid return code 0 for subprocess.')] *)
| NotImplementedError
| UnicodeDecodeError
| Raised_CalledProcessError (e : CalledProcessError_data.t).

Definition result (A : Type) : Type := (exception + A)%type.
Definition Ok {A} (a : A) : result A := inr a.
Definition raise {A} (e : exception) : result A := inl e.

Definition rbind {A B} (c : result A) (k : A -> result B) : result B :=
  match c with
  | inl e => inl e
  | inr a => k a
  end.

Declare Scope result_scope.
Delimit Scope result_scope with res.
Notation "x <- c ;; k" := (rbind c (fun x => k))
  (at level 61, c at next level, right associativity) : result_scope.

(** [list(itertools.chain.from_iterable(gen))] for a generator whose items
    are computed on demand: the items are forced left to right and the first
    raise ends the traversal. *)
Fixpoint chain_from_iterable {A} (gen : list (result (list A))) : result (list A) :=
  match gen with
  | [] => Ok []
  | item :: rest =>
      (xs <- item ;;
       ys <- chain_from_iterable rest ;;
       Ok (xs ++ ys)%list)%res
  end.

(** ** String and byte primitives of the host language *)

Definition mem_ascii (c : ascii) (chars : string) : bool :=
  existsb (Ascii.eqb c) (list_ascii_of_string chars).

(** [s.rstrip(chars)]: drop the longest suffix made of characters of [chars]. *)
Fixpoint rstrip (s chars : string) : string :=
  match s with
  | EmptyString => EmptyString
  | String a s' =>
      match rstrip s' chars with
      | EmptyString => if mem_ascii a chars then EmptyString else String a EmptyString
      | r => String a r
      end
  end.

(** [s.replace(old, new)] for one-character [old] and [new]. *)
Fixpoint replace (s : string) (old new : ascii) : string :=
  match s with
  | EmptyString => EmptyString
  | String a s' => String (if Ascii.eqb a old then new else a) (replace s' old new)
  end.

(** [sep.join(items)] *)
Definition join (sep : string) (items : list string) : string :=
  String.concat sep items.

(** [f'{n:d}'] *)
Definition format_d (n : Z) : string := NilZero.string_of_int (Z.to_int n).

(** [str.encode()], UTF-8. *)
Definition str_encode (s : string) : bytes := list_byte_of_string s.

(** Well-formedness of a UTF-8 byte sequence (RFC 3629: no overlong forms,
    no surrogates, nothing above U+10FFFF). *)
Definition continuation (b : N) : bool := ((0x80 <=? b) && (b <=? 0xBF))%N.

Fixpoint utf8_valid (b : list N) : bool :=
  match b with
  | [] => true
  | b0 :: r0 =>
      if (b0 <? 0x80)%N then utf8_valid r0
      else if (b0 <? 0xC2)%N then false
      else if (b0 <? 0xE0)%N then
        match r0 with
        | b1 :: r1 => continuation b1 && utf8_valid r1
        | _ => false
        end
      else if (b0 <? 0xF0)%N then
        match r0 with
        | b1 :: b2 :: r2 =>
            (if (b0 =? 0xE0)%N then (0xA0 <=? b1) && (b1 <=? 0xBF)
             else if (b0 =? 0xED)%N then (0x80 <=? b1) && (b1 <=? 0x9F)
             else continuation b1)%N
            && continuation b2 && utf8_valid r2
        | _ => false
        end
      else if (b0 <? 0xF5)%N then
        match r0 with
        | b1 :: b2 :: b3 :: r3 =>
            (if (b0 =? 0xF0)%N then (0x90 <=? b1) && (b1 <=? 0xBF)
             else if (b0 =? 0xF4)%N then (0x80 <=? b1) && (b1 <=? 0x8F)
             else continuation b1)%N
            && continuation b2 && continuation b3 && utf8_valid r3
        | _ => false
        end
      else false
  end.

(** [bytes.decode()], UTF-8, strict. *)
Definition bytes_decode (b : bytes) : result string :=
  if utf8_valid (map Byte.to_N b) then Ok (string_of_list_byte b)
  else raise UnicodeDecodeError.

(** ** The host: signal table and child processes *)

(** A member of the enumeration [signal.Signals]. *)
Record Signal : Type := { sig_name : string; sig_value : Z }.

(** What the operating system contributes.  [Signals n] is the member
    returned by [signal.Signals(n)], [None] when that call raises
    [ValueError].  [child argv payload] is the exit status and the captured
    output and error streams of the child started with [argv] and fed
    [payload]. *)
Record Host : Type := {
  Signals : Z -> option Signal;
  child : list string -> bytes -> Z * bytes * bytes
}.

(** An [IntEnum] member inside an f-string is formatted by [int.__format__]:
    [f'{signal.Signals(9)}'] is ['9']. *)
Definition format_IntEnum (s : Signal) : string := format_d (sig_value s).

Module CompletedProcess.
Record t : Type := mk {
  args : list string;
  returncode : Z;
  stdout : bytes;
  stderr : bytes
}.
End CompletedProcess.

(** The observable effects: the children spawned so far, each with its
    argument vector and input payload, and the lines printed so far. *)
Record World : Type := {
  spawned : list (list string * bytes);
  printed : list string
}.

Definition IO (A : Type) : Type := World -> result A * World.

Definition ret {A} (a : A) : IO A := fun w => (Ok a, w).
Definition throw {A} (e : exception) : IO A := fun w => (raise e, w).
Definition lift {A} (c : result A) : IO A := fun w => (c, w).
Definition bind {A B} (c : IO A) (k : A -> IO B) : IO B :=
  fun w =>
    match c w with
    | (inl e, w') => (inl e, w')
    | (inr a, w') => k a w'
    end.

Declare Scope io_scope.
Delimit Scope io_scope with io.
Notation "x <- c ;; k" := (bind c (fun x => k))
  (at level 61, c at next level, right associativity) : io_scope.
Notation "c ;; k" := (bind c (fun _ => k))
  (at level 61, right associativity) : io_scope.

(** [subprocess.run(argv, input=payload, stdout=PIPE, stderr=PIPE)], for the
    runs in which the launch itself succeeds.  [subprocess.run] raises before
    any child exists when the binary is not found or a token holds a NUL
    character; those runs are not modelled, and every statement about the
    children started is about the runs in which the child is started. *)
Definition sp_run (h : Host) (argv : list string) (payload : bytes)
  : IO CompletedProcess.t :=
  fun w =>
    let '(code, out, err) := child h argv payload in
    (Ok (CompletedProcess.mk argv code out err),
     {| spawned := (spawned w ++ [(argv, payload)])%list; printed := printed w |}).

Definition nl : string := String (ascii_of_nat 10) EmptyString.
Definition tab : string := String (ascii_of_nat 9) EmptyString.

(** ** [CalledProcessError] *)

Module CalledProcessError.
Import CalledProcessError_data.

Definition __post_init__ (input : bytes) (proc : CompletedProcess.t) : result t :=
  Ok {| input := input;
        args := CompletedProcess.args proc;
        return_code := CompletedProcess.returncode proc;
        output := CompletedProcess.stdout proc;
        error := CompletedProcess.stderr proc |}.

(** The constructor generated by [@dataclass]: it stores [input] and calls
    [__post_init__]. *)
Definition __init__ (proc : CompletedProcess.t) (input : bytes) : result t :=
  __post_init__ input proc.

(** One appended line of [__str__]: nothing for an empty stream. *)
Definition labelled (label : string) (stream : bytes) : result string :=
  match stream with
  | [] => Ok ""
  | _ => (s <- bytes_decode stream ;; Ok (nl ++ tab ++ label ++ tab ++ s))%res
  end.

Definition __str__ (h : Host) (self : t) : result string :=
  if (return_code self =? 0)%Z then raise ValueError_return_code_0
  else
    let return_context :=
      if (return_code self <? 0)%Z then
        match Signals h (- return_code self) with
        | Some sig => "died with " ++ format_IntEnum sig ++ "."
        | None => "died with unknown signal " ++ format_d (- return_code self) ++ "."
        end
      else "returned non-zero exit status " ++ format_d (return_code self) ++ "." in
    (i <- labelled "input:" (input self) ;;
     e <- labelled "error:" (error self) ;;
     o <- labelled "output:" (output self) ;;
     Ok ("Subprocess " ++ join " " (args self) ++ " " ++ return_context
           ++ i ++ e ++ o))%res.

(** [print(e)] *)
Definition print (h : Host) (e : t) : IO unit :=
  (s <- lift (__str__ h e) ;;
   fun w => (Ok tt, {| spawned := spawned w; printed := (printed w ++ [s])%list |}))%io.

Definition check (h : Host) (proc : CompletedProcess.t) (input : bytes) : IO unit :=
  if negb (CompletedProcess.returncode proc =? 0)%Z then
    (e <- lift (__init__ proc input) ;;
     print h e ;;
     e' <- lift (__init__ proc input) ;;
     throw (Raised_CalledProcessError e'))%io
  else ret tt.
End CalledProcessError.

(** ** Dataclass fields *)

Record Field : Type := { name : string; type : PyType; default : PyVal }.

(** A dataclass instance, as the encoder reads it: the pairs
    [zip(fields(self), (getattr(self, f.name) for f in fields(self)))]. *)
Definition dataclass : Type := list (Field * PyVal).

Fixpoint kwarg (kwargs : list (string * PyVal)) (n : string) : option PyVal :=
  match kwargs with
  | [] => None
  | (k, v) :: rest => if String.eqb k n then Some v else kwarg rest n
  end.

(** The constructor generated by [@dataclass]: each field takes the keyword
    argument of its name, or its default.  The keywords are taken to name
    declared fields; for a keyword that names none the constructor raises
    [TypeError], which is not modelled. *)
Definition new (fields : list Field) (kwargs : list (string * PyVal)) : dataclass :=
  map (fun f => (f, match kwarg kwargs (name f) with
                    | Some v => v
                    | None => default f
                    end)) fields.

(** [typing] never stores the object [None] among the members of a union. *)
Definition is_None_object (t : PyType) : bool := false.

Definition _field_type (field : Field) : result PyType :=
  match type field with
  | TUnion args =>
      match nth_error args 1 with
      | Some a1 =>
          if is_None_object a1 then Ok (nth 0 args a1)
          else raise NotImplementedError
      | None => raise NotImplementedError
      end
  | t => Ok t
  end.

Definition _field_name_flag (field : Field) : string :=
  "--" ++ replace (rstrip (name field) "_") "_" "-".

(** ** [File] and [Stdin] *)

Module File.
Inductive Mode : Type := Input | Output.

Definition PATH_STDOUT : string := "-".

Module Encodings.
Inductive t : Type := JSON | YAMl | TEXT | UNSPECIFIED.

Definition value (self : t) : option string :=
  match self with
  | JSON => Some "json"
  | YAMl => Some "yaml"
  | TEXT => Some "txt"
  | UNSPECIFIED => None
  end.

(** [f'{self.value}'] *)
Definition format_value (self : t) : string :=
  match value self with
  | Some v => v
  | None => "None"
  end.

Definition to_args (self : t) : list string :=
  match self with
  | UNSPECIFIED => []
  | _ => [format_value self ++ ":"]
  end.
End Encodings.

Record t : Type := mk { path : string; encoding : Encodings.t }.

Definition to_args (self : t) (mode : Mode) : list string :=
  let args := (Encodings.to_args (encoding self) ++ [path self])%list in
  match mode with
  | Output => [join "" args]
  | Input => args
  end.
End File.

Module Stdin.
Record t : Type := mk { contents : string; encoding : File.Encodings.t }.

Definition path : string := "-".

Definition encode (self : t) : bytes := str_encode (contents self).

(** [File.to_args(self, mode)]: the method of [File] run on the [Stdin]
    object, whose [path] is the class attribute. *)
Definition to_args (self : t) (mode : File.Mode) : list string :=
  File.to_args (File.mk path (encoding self)) mode.
End Stdin.

(** [Input = Union[Stdin, str]] *)
Inductive Input : Type :=
| Input_str (s : string)
| Input_Stdin (s : Stdin.t).

(** [FileStr = Union[File, str, pathlib.Path]]; a [Path] is held by its
    [str()] text. *)
Inductive FileStr : Type :=
| FileStr_File (f : File.t)
| FileStr_str (s : string)
| FileStr_Path (p : string).

(** [Files = Union[FileStr, list[FileStr]]] *)
Inductive Files : Type :=
| Files_one (f : FileStr)
| Files_list (l : list FileStr).

(** ** [Cmd] *)

Module Cmd.
Module Flags.
Module _Flag.
Definition is_bool (type_ : PyType) : bool :=
  match type_ with Tbool => true | _ => false end.

Definition isinstance_bool (value : PyVal) : bool :=
  match value with PBool _ => true | _ => false end.

Fixpoint value_to_args (flag : string) (type_ : PyType) (value : PyVal)
  {struct value} : result (list string) :=
  if is_bool type_ && isinstance_bool value then
    match value with
    | PBool true => Ok [flag]
    | _ => Ok []
    end
  else
    match value with
    | PNone => Ok []
    | PStr s => Ok [flag ++ "=" ++ s]
    | PList l => chain_from_iterable (map (value_to_args flag strOpt) l)
    | _ => raise (ValueError_invalid flag type_ value)
    end.

Definition field_to_args (field : Field) (value : PyVal) : result (list string) :=
  let flag := _field_name_flag field in
  let type_ := type field in
  value_to_args flag type_ value.

Definition to_args (self : dataclass) : result (list string) :=
  chain_from_iterable (map (fun fv => field_to_args (fst fv) (snd fv)) self).
End _Flag.

Definition flag_bool (n : string) : Field :=
  {| name := n; type := Tbool; default := PBool false |}.
Definition flag_strOpt (n : string) : Field :=
  {| name := n; type := strOpt; default := PNone |}.
Definition flag_strListOpt (n : string) : Field :=
  {| name := n; type := strListOpt; default := PNone |}.

Definition Global_fields : list Field :=
  [ flag_bool "all_errors"; flag_bool "ignore"; flag_bool "simplify";
    flag_bool "strict"; flag_bool "trace"; flag_bool "verbose" ].

Definition Eval_fields : list Field :=
  [ flag_bool "all"; flag_bool "concrete"; flag_strListOpt "expression";
    flag_bool "help"; flag_strListOpt "inject"; flag_bool "list_";
    flag_bool "merge"; flag_strOpt "name"; flag_strOpt "out";
    flag_strOpt "outfile"; flag_strOpt "package"; flag_strListOpt "path";
    flag_strListOpt "proto_path"; flag_strOpt "schema";
    flag_bool "show_attributes"; flag_bool "show_hidden";
    flag_bool "show_optional"; flag_bool "with_context" ].

Definition Def_fields : list Field :=
  [ flag_strListOpt "expression"; flag_bool "help"; flag_strListOpt "inject";
    flag_bool "list_"; flag_bool "merge"; flag_strOpt "name";
    flag_strOpt "out"; flag_strOpt "outfile"; flag_strOpt "package";
    flag_strListOpt "path"; flag_strListOpt "proto_path";
    flag_strOpt "schema"; flag_bool "show_attributes";
    flag_bool "with_context" ].

Definition Vet_fields : list Field :=
  [ flag_bool "concrete"; flag_bool "help"; flag_strListOpt "inject";
    flag_bool "list_"; flag_bool "merge"; flag_strOpt "name";
    flag_strOpt "package"; flag_strListOpt "path";
    flag_strListOpt "proto_path"; flag_strOpt "schema";
    flag_bool "with_context" ].

Definition Global := new Global_fields.
Definition Eval := new Eval_fields.
Definition Def := new Def_fields.
Definition Vet := new Vet_fields.

(** [args + [] if not global_ else global_.to_args()] is the conditional
    expression [(args + []) if not global_ else global_.to_args()]; a
    dataclass instance is truthy. *)
Definition parse (cmd global_ : option dataclass) : result (list string) :=
  (args <- match cmd with
           | None => Ok []
           | Some c => _Flag.to_args c
           end ;;
   match global_ with
   | None => Ok (args ++ [])%list
   | Some g => _Flag.to_args g
   end)%res.
End Flags.

Definition parse_file (file : FileStr) (mode : File.Mode) : list string :=
  match file with
  | FileStr_File f => File.to_args f mode
  | FileStr_str s => [s]
  | FileStr_Path p => [p]
  end.

(** Truth value of [files]: [None], the empty list and the empty string
    are false. *)
Definition truthy_files (files : option Files) : bool :=
  match files with
  | None => false
  | Some (Files_list []) => false
  | Some (Files_one (FileStr_str "")) => false
  | Some _ => true
  end.

Definition parse_files (files : option Files) (mode : File.Mode) : list string :=
  if truthy_files files then
    match files with
    | Some (Files_list l) => concat (map (fun file => parse_file file mode) l)
    | Some (Files_one f) => parse_file f mode
    | None => []
    end
  else [].

(** [input.encode()] *)
Definition input_encode (input : Input) : bytes :=
  match input with
  | Input_str s => str_encode s
  | Input_Stdin s => Stdin.encode s
  end.

(** The input tokens: [['-'] if type(input) is str else
    ([] if not input else input.to_args(File.Mode.Input))]; a [Stdin]
    instance is truthy. *)
Definition input_args (input : Input) : list string :=
  match input with
  | Input_str _ => ["-"]
  | Input_Stdin s => Stdin.to_args s File.Input
  end.

Definition cmd (h : Host) (cmd : string) (input : Input) (files : option Files)
  (flags_cmd flags_global : option dataclass) : IO string :=
  (flags <- lift (Flags.parse flags_cmd flags_global) ;;
   run <- sp_run h
            (["cue"; cmd] ++ parse_files files File.Input
               ++ input_args input ++ flags)%list
            (input_encode input) ;;
   CalledProcessError.check h run (input_encode input) ;;
   lift (bytes_decode (CompletedProcess.stdout run)))%io.

Definition eval (h : Host) (input : Input) (files : option Files)
  (flags flags_global : option dataclass) : IO string :=
  cmd h "eval" input files flags flags_global.

Definition def_ (h : Host) (input : Input) (files : option Files)
  (flags flags_global : option dataclass) : IO string :=
  cmd h "def" input files flags flags_global.

Definition vet (h : Host) (input : Input) (files : option Files)
  (flags flags_global : option dataclass) : IO string :=
  cmd h "vet" input files flags flags_global.
End Cmd.

(** ** A concrete host *)

(** The members of [signal.Signals] on Linux. *)
Definition linux_signal_table : list (Z * string) :=
  [ (1, "SIGHUP"); (2, "SIGINT"); (3, "SIGQUIT"); (4, "SIGILL");
    (5, "SIGTRAP"); (6, "SIGABRT"); (7, "SIGBUS"); (8, "SIGFPE");
    (9, "SIGKILL"); (10, "SIGUSR1"); (11, "SIGSEGV"); (12, "SIGUSR2");
    (13, "SIGPIPE"); (14, "SIGALRM"); (15, "SIGTERM"); (16, "SIGSTKFLT");
    (17, "SIGCHLD"); (18, "SIGCONT"); (19, "SIGSTOP"); (20, "SIGTSTP");
    (21, "SIGTTIN"); (22, "SIGTTOU"); (23, "SIGURG"); (24, "SIGXCPU");
    (25, "SIGXFSZ"); (26, "SIGVTALRM"); (27, "SIGPROF"); (28, "SIGWINCH");
    (29, "SIGIO"); (30, "SIGPWR"); (31, "SIGSYS"); (34, "SIGRTMIN");
    (64, "SIGRTMAX") ]%Z.

Fixpoint lookup_signal (table : list (Z * string)) (n : Z) : option Signal :=
  match table with
  | [] => None
  | (k, nm) :: rest =>
      if (k =? n)%Z then Some {| sig_name := nm; sig_value := k |}
      else lookup_signal rest n
  end.

(** A Linux host on which every child ends with the given outcome. *)
Definition linux_host (outcome : Z * bytes * bytes) : Host :=
  {| Signals := lookup_signal linux_signal_table;
     child := fun _ _ => outcome |}.

Definition world0 : World := {| spawned := []; printed := [] |}.

(** ** Vocabulary of the statements *)

(** [underscores k] is the string of [k] underscores. *)
Fixpoint underscores (k : nat) : string :=
  match k with
  | O => EmptyString
  | S k' => String "_" (underscores k')
  end.

(** The last character of [s] is [c]. *)
Fixpoint ends_with (s : string) (c : ascii) : bool :=
  match s with
  | EmptyString => false
  | String a EmptyString => Ascii.eqb a c
  | String _ s' => ends_with s' c
  end.

Definition hyphen_for_underscore (c : ascii) : ascii :=
  if Ascii.eqb c "_" then "-"%char else c.

(** [sub] occurs in [s]. *)
Definition occurs (sub s : string) : bool :=
  match index 0 sub s with
  | Some _ => true
  | None => false
  end.

(** The values the encoder refuses under a declared type: a [bool] where the
    declared type is not [bool], an object that is neither [None], [bool],
    [str] nor [list], and a list with a refused element, the elements being
    judged as [Optional[str]]. *)
Fixpoint rejected (type_ : PyType) (value : PyVal) {struct value} : bool :=
  match value with
  | PNone => false
  | PBool _ => negb (Cmd.Flags._Flag.is_bool type_)
  | PStr _ => false
  | PList l => existsb (rejected strOpt) l
  | PObj _ => true
  end.

Definition is_list (value : PyVal) : bool :=
  match value with PList _ => true | _ => false end.

(** The encoding prefix of the specification: [<encoding>:] for an explicit
    encoding, nothing when unspecified. *)
Definition encoding_prefix (e : File.Encodings.t) : string :=
  match e with
  | File.Encodings.JSON => "json:"
  | File.Encodings.YAMl => "yaml:"
  | File.Encodings.TEXT => "txt:"
  | File.Encodings.UNSPECIFIED => ""
  end.

(** Input-mode rendering in the words of the specification: prefix and path
    as two tokens, the prefix left out when empty. *)
Definition spec_render_input (path : string) (e : File.Encodings.t) : list string :=
  match e with
  | File.Encodings.UNSPECIFIED => [path]
  | _ => [encoding_prefix e; path]
  end.

Definition spec_render_FileStr (f : FileStr) : list string :=
  match f with
  | FileStr_File f => spec_render_input (File.path f) (File.encoding f)
  | FileStr_str s => [s]
  | FileStr_Path p => [p]
  end.

(** File tokens in the words of the specification: none when [files] is
    absent or empty, the renderings of the elements of a sequence in order,
    the rendering of a single element otherwise. *)
Definition spec_file_tokens (files : option Files) : list string :=
  match files with
  | None => []
  | Some (Files_list l) => flat_map spec_render_FileStr l
  | Some (Files_one (FileStr_str "")) => []
  | Some (Files_one f) => spec_render_FileStr f
  end.

(** Input tokens in the words of the specification: the placeholder [-] for
    a bare string, the descriptor's own Input-mode tokens otherwise. *)
Definition spec_input_tokens (input : Input) : list string :=
  match input with
  | Input_str _ => ["-"]
  | Input_Stdin s => spec_render_input "-" (Stdin.encoding s)
  end.

(** The text whose encoding is the payload. *)
Definition input_text (input : Input) : string :=
  match input with
  | Input_str s => s
  | Input_Stdin s => Stdin.contents s
  end.

(** ** Induction on values *)

Section PyVal_induction.
Variable P : PyVal -> Prop.
Hypothesis HNone : P PNone.
Hypothesis HBool : forall b, P (PBool b).
Hypothesis HStr : forall s, P (PStr s).
Hypothesis HList : forall l, Forall P l -> P (PList l).
Hypothesis HObj : forall r, P (PObj r).

Fixpoint PyVal_forall_ind (v : PyVal) : P v :=
  match v with
  | PNone => HNone
  | PBool b => HBool b
  | PStr s => HStr s
  | PList l =>
      HList ((fix all (l : list PyVal) : Forall P l :=
                match l with
                | [] => Forall_nil P
                | x :: r => Forall_cons x (PyVal_forall_ind x) (all r)
                end) l)
  | PObj r => HObj r
  end.
End PyVal_induction.

(** ** Vocabulary of the further properties *)

(** The computation returned a value. *)
Definition succeeds {A} (r : result A) : bool :=
  match r with
  | inr _ => true
  | inl _ => false
  end.

(** No attribute of the instance holds a refused value. *)
Definition accepted (obj : dataclass) : bool :=
  forallb (fun fv => negb (rejected (type (fst fv)) (snd fv))) obj.

(** The default of the field is [None], or [False] under a [bool]
    declaration. *)
Definition unset_default (f : Field) : bool :=
  match default f with
  | PNone => true
  | PBool false => Cmd.Flags._Flag.is_bool (type f)
  | _ => false
  end.

(** [tok] is the bare [flag] or [flag=<text>]. *)
Definition is_flag_token (flag tok : string) : bool :=
  String.eqb tok flag || prefix (flag ++ "=") tok.

(** The byte string is well-formed UTF-8. *)
Definition decodable (b : bytes) : bool := utf8_valid (map Byte.to_N b).

(** The argument vector [cmd] hands to [subprocess.run]. *)
Definition cmd_argv (c : string) (input : Input) (files : option Files)
  (opts : list string) : list string :=
  (["cue"; c] ++ Cmd.parse_files files File.Input
     ++ Cmd.input_args input ++ opts)%list.

(** The world once one more child has been started. *)
Definition after_spawn (w : World) (argv : list string) (payload : bytes) : World :=
  {| spawned := (spawned w ++ [(argv, payload)])%list; printed := printed w |}.

(** The world once one more line has been printed. *)
Definition after_print (w : World) (line : string) : World :=
  {| spawned := spawned w; printed := (printed w ++ [line])%list |}.

(** The names are pairwise different. *)
Fixpoint distinct (names : list string) : bool :=
  match names with
  | [] => true
  | n :: rest => negb (existsb (String.eqb n) rest) && distinct rest
  end.

(** The value is [None], a [str] or a [list]. *)
Definition none_str_or_list (value : PyVal) : bool :=
  match value with
  | PNone | PStr _ | PList _ => true
  | _ => false
  end.

(** ** What a refusal names *)

(** The type and the value named by the error of the encoder, if it
    refuses [value] under the declared type [type_]: a [bool] under a
    declaration that is not [bool] and an object that is neither [None],
    [bool], [str] nor [list] are named with the declared type; in a list the
    elements are judged as [Optional[str]], from left to right, and the first
    refusal found is the one named. *)
Fixpoint offender (type_ : PyType) (value : PyVal) {struct value}
  : option (PyType * PyVal) :=
  match value with
  | PNone => None
  | PBool _ => if Cmd.Flags._Flag.is_bool type_ then None else Some (type_, value)
  | PStr _ => None
  | PList l =>
      (fix first (l : list PyVal) : option (PyType * PyVal) :=
         match l with
         | [] => None
         | x :: r =>
             match offender strOpt x with
             | Some o => Some o
             | None => first r
             end
         end) l
  | PObj _ => Some (type_, value)
  end.

(** The tokens of a value by its runtime type: none for [None], the bare
    flag for [True], [flag=text] for a string, the tokens of the elements in
    order for a list. *)
Fixpoint value_tokens (flag : string) (value : PyVal) {struct value} : list string :=
  match value with
  | PNone => []
  | PBool b => if b then [flag] else []
  | PStr s => [flag ++ "=" ++ s]
  | PList l => flat_map (value_tokens flag) l
  | PObj _ => []
  end.

(** The refusal of an option set: that of its first refused option in the
    order of declaration, named with the flag of that option. *)
Fixpoint first_offender (obj : dataclass) : option (string * PyType * PyVal) :=
  match obj with
  | [] => None
  | (f, v) :: rest =>
      match offender (type f) v with
      | Some (t, x) => Some (_field_name_flag f, t, x)
      | None => first_offender rest
      end
  end.

(** The tokens of an option set: those of its options in the order of
    declaration. *)
Definition set_tokens (obj : dataclass) : list string :=
  flat_map (fun fv => value_tokens (_field_name_flag (fst fv)) (snd fv)) obj.

(** The refusal of the two supplied sets: that of the command set, else
    that of the global set. *)
Definition parse_offender (fc fg : option dataclass)
  : option (string * PyType * PyVal) :=
  match match fc with Some c => first_offender c | None => None end with
  | Some o => Some o
  | None => match fg with Some g => first_offender g | None => None end
  end.

(** * Properties *)

(** ** String primitives *)

Lemma append_empty_r (s : string) : s ++ "" = s.
Proof. induction s as [|a s IH]; simpl; [reflexivity | now rewrite IH]. Qed.

Lemma append_assoc (a b c : string) : (a ++ b) ++ c = a ++ (b ++ c).
Proof. induction a as [|x a IH]; simpl; [reflexivity | now rewrite IH]. Qed.

Lemma rstrip_underscores (k : nat) : rstrip (underscores k) "_" = "".
Proof.
  induction k as [|k IH]; simpl; [reflexivity|].
  rewrite IH. reflexivity.
Qed.

Lemma mem_ascii_single (a c : ascii) :
  mem_ascii a (String c "") = Ascii.eqb a c.
Proof. unfold mem_ascii. simpl. apply orb_false_r. Qed.

(** [rstrip] removes exactly the trailing run of underscores. *)
Lemma rstrip_trailing (body : string) (k : nat) :
  ends_with body "_" = false ->
  rstrip (body ++ underscores k) "_" = body.
Proof.
  induction body as [|a body IH]; intros Hend.
  - apply rstrip_underscores.
  - cbn [append rstrip]. destruct body as [|b body'].
    + cbn [append]. rewrite rstrip_underscores, mem_ascii_single.
      cbn [ends_with] in Hend. now rewrite Hend.
    + rewrite IH by exact Hend. reflexivity.
Qed.

Lemma get_replace (s : string) (old new : ascii) (i : nat) :
  get i (replace s old new)
  = option_map (fun c => if Ascii.eqb c old then new else c) (get i s).
Proof.
  revert i. induction s as [|a s IH]; intros i; simpl; [reflexivity|].
  destruct i; [reflexivity | apply IH].
Qed.

Lemma join_empty_two (a b : string) : join "" [a; b] = a ++ b.
Proof. reflexivity. Qed.

(** ** Option-set encoder *)

Import Cmd.Flags.

Lemma value_to_args_str_list (flag : string) (l : list string) :
  chain_from_iterable (map (_Flag.value_to_args flag strOpt) (map PStr l))
  = Ok (map (fun e => flag ++ "=" ++ e) l).
Proof.
  induction l as [|e l IH]; [reflexivity|].
  cbn [map chain_from_iterable]. rewrite IH. reflexivity.
Qed.

Lemma value_to_args_None (flag : string) (type_ : PyType) :
  _Flag.value_to_args flag type_ PNone = Ok [].
Proof. destruct type_; reflexivity. Qed.

Lemma value_to_args_PStr (flag : string) (type_ : PyType) (s : string) :
  _Flag.value_to_args flag type_ (PStr s) = Ok [flag ++ "=" ++ s].
Proof. destruct type_; reflexivity. Qed.

Lemma value_to_args_PList (flag : string) (type_ : PyType) (l : list PyVal) :
  _Flag.value_to_args flag type_ (PList l)
  = chain_from_iterable (map (_Flag.value_to_args flag strOpt) l).
Proof. destruct type_; reflexivity. Qed.

Lemma value_to_args_PObj (flag : string) (type_ : PyType) (r : string) :
  _Flag.value_to_args flag type_ (PObj r)
  = raise (ValueError_invalid flag type_ (PObj r)).
Proof. destruct type_; reflexivity. Qed.

Lemma value_to_args_PBool (flag : string) (type_ : PyType) (b : bool) :
  _Flag.value_to_args flag type_ (PBool b)
  = if _Flag.is_bool type_ then Ok (if b then [flag] else [])
    else raise (ValueError_invalid flag type_ (PBool b)).
Proof. destruct type_, b; reflexivity. Qed.

(** C5.  A boolean option encodes to the bare flag when true and to nothing
    when false; a string option encodes to nothing when [None] and to
    [--flag=v] for the string [v]; a list option with n string elements
    encodes to n tokens [--flag=<element>] in the order of the elements; an
    absent ([None]) option of any kind contributes nothing. *)
Theorem option_value_encoding (n : string) (d : PyVal) :
  let flag := _field_name_flag {| name := n; type := Tbool; default := d |} in
  _Flag.field_to_args {| name := n; type := Tbool; default := d |} (PBool true)
    = Ok [flag]
  /\ _Flag.field_to_args {| name := n; type := Tbool; default := d |} (PBool false)
    = Ok []
  /\ _Flag.field_to_args {| name := n; type := strOpt; default := d |} PNone
    = Ok []
  /\ (forall v : string,
        _Flag.field_to_args {| name := n; type := strOpt; default := d |} (PStr v)
        = Ok [flag ++ "=" ++ v])
  /\ (forall l : list string,
        _Flag.field_to_args {| name := n; type := strListOpt; default := d |}
          (PList (map PStr l))
        = Ok (map (fun e => flag ++ "=" ++ e) l)
        /\ length (map (fun e => flag ++ "=" ++ e) l) = length l)
  /\ (forall type_ : PyType,
        _Flag.field_to_args {| name := n; type := type_; default := d |} PNone
        = Ok []).
Proof.
  intros flag. unfold _Flag.field_to_args. cbn [type].
  split; [reflexivity|]. split; [reflexivity|]. split; [reflexivity|].
  split; [intros v; apply value_to_args_PStr|].
  split; [|intros type_; apply value_to_args_None].
  intros l. split; [|apply length_map].
  rewrite value_to_args_PList. apply value_to_args_str_list.
Qed.

(** C6.  The flag of an option is a function of its identifier alone: the
    trailing underscores are dropped, every remaining underscore becomes a
    hyphen and [--] is put in front; [expression], [show_hidden] and [list_]
    give [--expression], [--show-hidden] and [--list]. *)
Theorem field_name_flag_derivation (f : Field) (body : string) (k : nat) :
  name f = body ++ underscores k ->
  ends_with body "_" = false ->
  _field_name_flag f = "--" ++ replace body "_" "-"
  /\ String.length (replace body "_" "-") = String.length body
  /\ (forall i, get i (replace body "_" "-")
                = option_map hyphen_for_underscore (get i body))
  /\ _field_name_flag (flag_strListOpt "expression") = "--expression"
  /\ _field_name_flag (flag_bool "show_hidden") = "--show-hidden"
  /\ _field_name_flag (flag_bool "list_") = "--list".
Proof.
  intros Hname Hend. unfold _field_name_flag. rewrite Hname.
  rewrite rstrip_trailing by exact Hend.
  split; [reflexivity|]. split.
  - clear. induction body as [|a body IH]; simpl; [reflexivity | now rewrite IH].
  - split; [intros i; apply get_replace|].
    split; [reflexivity|]. split; reflexivity.
Qed.

Lemma field_name_flag_derivation_witness :
  name (flag_bool "show__hidden__") = "show__hidden" ++ underscores 2
  /\ ends_with "show__hidden" "_" = false
  /\ _field_name_flag (flag_bool "show__hidden__") = "--show--hidden".
Proof.
  split; [reflexivity | split; [reflexivity|]].
  exact (proj1 (@field_name_flag_derivation (flag_bool "show__hidden__")
                  "show__hidden" 2 eq_refl eq_refl)).
Defined.

(** ** File and input descriptors *)

Lemma Encodings_to_args_prefix (e : File.Encodings.t) :
  File.Encodings.to_args e
  = match e with
    | File.Encodings.UNSPECIFIED => []
    | _ => [encoding_prefix e]
    end.
Proof. destruct e; reflexivity. Qed.

Lemma File_to_args_Input (p : string) (e : File.Encodings.t) :
  File.to_args (File.mk p e) File.Input = spec_render_input p e.
Proof. destruct e; reflexivity. Qed.

(** C7.  A file with path [p] and encoding [e] renders in Output mode to the
    single token made of the encoding prefix followed by the path, and in
    Input mode to the prefix and the path as two tokens; with the encoding
    unspecified the prefix gives no token, so Input mode yields [[p]]. *)
Theorem file_rendering (p : string) (e : File.Encodings.t) :
  File.to_args (File.mk p e) File.Output = [encoding_prefix e ++ p]
  /\ File.to_args (File.mk p e) File.Input
     = match e with
       | File.Encodings.UNSPECIFIED => [p]
       | _ => [encoding_prefix e; p]
       end
  /\ File.to_args (File.mk "a.json" File.Encodings.JSON) File.Output
     = ["json:a.json"]
  /\ File.to_args (File.mk "a.json" File.Encodings.JSON) File.Input
     = ["json:"; "a.json"]
  /\ File.to_args (File.mk "a.json" File.Encodings.UNSPECIFIED) File.Input
     = ["a.json"].
Proof.
  split.
  - destruct e; cbn; now rewrite ?append_empty_r.
  - split; [destruct e; reflexivity|].
    split; [reflexivity|]. split; reflexivity.
Qed.

(** ** The two flag sets of one invocation *)

Lemma parse_both (c g : dataclass) (toks : list string) :
  _Flag.to_args c = Ok toks ->
  parse (Some c) (Some g) = _Flag.to_args g.
Proof. intros H. unfold parse. rewrite H. reflexivity. Qed.

(** C1.  With a command flag set carrying [all=True] and a global flag set
    carrying [verbose=True], the command set alone encodes to [--all] and the
    global set alone to [--verbose], but [parse] returns [--verbose] only, and
    the child is started without [--all]. *)
Theorem parse_drops_command_flags :
  _Flag.to_args (Eval [("all", PBool true)]) = Ok ["--all"]
  /\ _Flag.to_args (Global [("verbose", PBool true)]) = Ok ["--verbose"]
  /\ parse (Some (Eval [("all", PBool true)]))
           (Some (Global [("verbose", PBool true)]))
     = Ok ["--verbose"]
  /\ spawned (snd (Cmd.cmd (linux_host (0%Z, [], [])) "eval" (Input_str "") None
                     (Some (Eval [("all", PBool true)]))
                     (Some (Global [("verbose", PBool true)])) world0))
     = [(["cue"; "eval"; "-"; "--verbose"], [])].
Proof. repeat split. Qed.

(** ** Refused values *)

(** The encoder fails exactly on the refused values.  The error names the
    flag; it names the type and the value passed in when the value itself is
    refused, and [Optional[str]] with the refused element when the value is
    a list. *)
Lemma value_to_args_rejected_iff (v : PyVal) :
  forall (flag : string) (type_ : PyType),
    (rejected type_ v = true ->
     exists v', _Flag.value_to_args flag type_ v
                = raise (ValueError_invalid flag
                           (if is_list v then strOpt else type_)
                           (if is_list v then v' else v)))
    /\ (rejected type_ v = false ->
        exists toks, _Flag.value_to_args flag type_ v = Ok toks).
Proof.
  induction v as [| b | s | l IH | r] using PyVal_forall_ind; intros flag type_.
  - split; [discriminate|]. intros _. exists []. apply value_to_args_None.
  - rewrite value_to_args_PBool. cbn [rejected is_list].
    destruct (_Flag.is_bool type_); cbn [negb]; split; try discriminate; intros _.
    + eexists; reflexivity.
    + exists PNone; reflexivity.
  - split; [discriminate|]. intros _. eexists. apply value_to_args_PStr.
  - rewrite value_to_args_PList. cbn [rejected is_list]. clear type_.
    induction IH as [|x l Hx _ IHl]; cbn [existsb map chain_from_iterable].
    + split; [discriminate|]. intros _. exists []. reflexivity.
    + destruct (Hx flag strOpt) as [Hbad Hgood].
      destruct (rejected strOpt x); cbn [orb].
      * split; [|discriminate]. intros _.
        destruct (Hbad eq_refl) as (v' & Hv). rewrite Hv.
        exists (if is_list x then v' else x).
        destruct (is_list x); reflexivity.
      * destruct (Hgood eq_refl) as (tx & Hv). rewrite Hv. cbn [rbind].
        destruct IHl as [IHbad IHgood]. split; intros H.
        -- destruct (IHbad H) as (v' & Hl). rewrite Hl.
           exists v'; reflexivity.
        -- destruct (IHgood H) as (tl & Hl). rewrite Hl.
           eexists; reflexivity.
  - split; [|discriminate]. intros _. rewrite value_to_args_PObj.
    exists PNone; reflexivity.
Qed.

Lemma to_args_cons (g : Field) (u : PyVal) (obj : dataclass) :
  _Flag.to_args ((g, u) :: obj)
  = (xs <- _Flag.value_to_args (_field_name_flag g) (type g) u ;;
     ys <- _Flag.to_args obj ;;
     Ok (xs ++ ys)%list)%res.
Proof. reflexivity. Qed.

(** An option set with a refused value does not encode: the error is the one
    of a declared option of the set. *)
Lemma to_args_rejected (obj : dataclass) (f : Field) (v : PyVal) :
  In (f, v) obj -> rejected (type f) v = true ->
  exists f' ty' v',
    In f' (map fst obj)
    /\ _Flag.to_args obj
       = raise (ValueError_invalid (_field_name_flag f') ty' v').
Proof.
  induction obj as [|[g u] obj IH]; intros Hin Hrej; [contradiction|].
  rewrite to_args_cons.
  destruct (value_to_args_rejected_iff u (_field_name_flag g) (type g))
    as [Hbad Hgood].
  destruct (rejected (type g) u) eqn:Hu.
  - destruct (Hbad eq_refl) as (v' & Hx). rewrite Hx.
    do 3 eexists. split; [now left | reflexivity].
  - destruct (Hgood eq_refl) as (toks & Hx). rewrite Hx. cbn [rbind].
    destruct Hin as [Heq | Hin].
    + injection Heq as -> ->. congruence.
    + destruct (IH Hin Hrej) as (f' & ty' & v' & Hf' & Hy). rewrite Hy.
      exists f', ty', v'. split; [now right | reflexivity].
Qed.

(** Every failure of the encoder is a [ValueError] naming a flag. *)
Lemma to_args_outcome (obj : dataclass) :
  (exists toks, _Flag.to_args obj = Ok toks)
  \/ (exists flag ty v, _Flag.to_args obj = raise (ValueError_invalid flag ty v)).
Proof.
  induction obj as [|[g u] obj IH].
  - left. eexists; reflexivity.
  - rewrite to_args_cons.
    destruct (value_to_args_rejected_iff u (_field_name_flag g) (type g))
      as [Hbad Hgood].
    destruct (rejected (type g) u).
    + right. destruct (Hbad eq_refl) as (v' & Hx). rewrite Hx.
      do 3 eexists; reflexivity.
    + destruct (Hgood eq_refl) as (toks & Hx). rewrite Hx. cbn [rbind].
      destruct IH as [(tl & Hy) | (flag & ty & v & Hy)]; rewrite Hy.
      * left. eexists; reflexivity.
      * right. do 3 eexists; reflexivity.
Qed.

(** A failed [parse] ends [cmd] before the child is started: nothing is
    spawned and nothing is printed. *)
Lemma cmd_parse_error (h : Host) (c : string) (input : Input)
  (files : option Files) (fc fg : option dataclass) (w : World) (e : exception) :
  parse fc fg = raise e ->
  Cmd.cmd h c input files fc fg w = (raise e, w).
Proof.
  intros H. unfold Cmd.cmd, bind, lift. rewrite H. reflexivity.
Qed.

Lemma offender_list_cons (type_ : PyType) (x : PyVal) (r : list PyVal) :
  offender type_ (PList (x :: r))
  = match offender strOpt x with
    | Some o => Some o
    | None => offender type_ (PList r)
    end.
Proof. reflexivity. Qed.

(** The encoder computes the tokens of the value, or raises the error naming
    what [offender] names. *)
Lemma value_to_args_offender (v : PyVal) :
  forall (flag : string) (type_ : PyType),
    _Flag.value_to_args flag type_ v
    = match offender type_ v with
      | Some (t, x) => raise (ValueError_invalid flag t x)
      | None => Ok (value_tokens flag v)
      end.
Proof.
  induction v as [| b | s | l IH | r] using PyVal_forall_ind; intros flag type_.
  - apply value_to_args_None.
  - rewrite value_to_args_PBool. cbn [offender value_tokens].
    destruct (_Flag.is_bool type_); reflexivity.
  - apply value_to_args_PStr.
  - rewrite value_to_args_PList.
    induction IH as [|x l Hx _ IHl]; [reflexivity|].
    rewrite offender_list_cons. cbn [map chain_from_iterable].
    rewrite (Hx flag strOpt).
    destruct (offender strOpt x) as [[t y]|]; [reflexivity|].
    cbn [rbind]. rewrite IHl.
    destruct (offender type_ (PList l)) as [[t y]|]; reflexivity.
  - apply value_to_args_PObj.
Qed.

Lemma offender_rejected (v : PyVal) :
  forall type_ : PyType,
    match offender type_ v with Some _ => true | None => false end
    = rejected type_ v.
Proof.
  induction v as [| b | s | l IH | r] using PyVal_forall_ind; intros type_;
    try reflexivity.
  - cbn [offender rejected]. destruct (_Flag.is_bool type_); reflexivity.
  - induction IH as [|x l Hx _ IHl]; [reflexivity|].
    rewrite offender_list_cons. cbn [rejected existsb].
    rewrite <- (Hx strOpt).
    destruct (offender strOpt x); [reflexivity|]. exact IHl.
Qed.

Lemma to_args_first_offender (obj : dataclass) :
  _Flag.to_args obj
  = match first_offender obj with
    | Some (fl, t, x) => raise (ValueError_invalid fl t x)
    | None => Ok (set_tokens obj)
    end.
Proof.
  induction obj as [|[g u] obj IH]; [reflexivity|].
  rewrite to_args_cons, value_to_args_offender. cbn [first_offender].
  destruct (offender (type g) u) as [[t x]|]; [reflexivity|].
  cbn [rbind]. rewrite IH.
  destruct (first_offender obj) as [[[fl t] x]|]; reflexivity.
Qed.

Lemma first_offender_accepted (obj : dataclass) :
  match first_offender obj with Some _ => false | None => true end
  = accepted obj.
Proof.
  induction obj as [|[g u] obj IH]; [reflexivity|].
  cbn [first_offender accepted forallb fst snd]. fold (accepted obj).
  rewrite <- offender_rejected, <- IH.
  destruct (offender (type g) u) as [[t x]|]; reflexivity.
Qed.

Lemma parse_refused (fc fg : option dataclass) (fl : string) (t : PyType)
  (x : PyVal) :
  parse_offender fc fg = Some (fl, t, x) ->
  parse fc fg = raise (ValueError_invalid fl t x).
Proof.
  unfold parse_offender, parse. destruct fc as [c|].
  - rewrite to_args_first_offender.
    destruct (first_offender c) as [[[fl' t'] x']|].
    + now intros [= -> -> ->].
    + cbn [rbind Ok]. destruct fg as [g|]; [|discriminate].
      rewrite to_args_first_offender. now intros ->.
  - cbn [rbind Ok]. destruct fg as [g|]; [|discriminate].
    rewrite to_args_first_offender. now intros ->.
Qed.

Lemma parse_succeeds (fc fg : option dataclass) :
  succeeds (parse fc fg)
  = match parse_offender fc fg with Some _ => false | None => true end.
Proof.
  unfold parse_offender, parse. destruct fc as [c|].
  - rewrite to_args_first_offender.
    destruct (first_offender c) as [[[fl' t'] x']|]; [reflexivity|].
    cbn [rbind Ok]. destruct fg as [g|]; [|reflexivity].
    rewrite to_args_first_offender.
    destruct (first_offender g) as [[[fl' t'] x']|]; reflexivity.
  - cbn [rbind Ok]. destruct fg as [g|]; [|reflexivity].
    rewrite to_args_first_offender.
    destruct (first_offender g) as [[[fl' t'] x']|]; reflexivity.
Qed.

Lemma value_to_args_refused_element (flag : string) (type_ : PyType)
  (pre : list PyVal) (x : PyVal) (post : list PyVal) (t : PyType) (y : PyVal) :
  existsb (rejected strOpt) pre = false ->
  offender strOpt x = Some (t, y) ->
  _Flag.value_to_args flag type_ (PList (pre ++ x :: post))
  = raise (ValueError_invalid flag t y).
Proof.
  intros Hpre Hx. rewrite value_to_args_PList.
  induction pre as [|a pre IH]; cbn [map app chain_from_iterable].
  - rewrite value_to_args_offender, Hx. reflexivity.
  - cbn [existsb] in Hpre. apply orb_false_iff in Hpre as [Ha Hpre].
    destruct (proj2 (value_to_args_rejected_iff a flag strOpt) Ha) as (ta & ->).
    rewrite (IH Hpre). reflexivity.
Qed.

Lemma first_offender_after_accepted (pre post : dataclass) (f : Field)
  (u : PyVal) (t : PyType) (x : PyVal) :
  accepted pre = true ->
  offender (type f) u = Some (t, x) ->
  first_offender (pre ++ (f, u) :: post)%list = Some (_field_name_flag f, t, x).
Proof.
  intros Hpre Hu.
  induction pre as [|[g a] pre IH]; cbn [app first_offender].
  - rewrite Hu. reflexivity.
  - cbn [accepted forallb fst snd] in Hpre. fold (accepted pre) in Hpre.
    apply andb_true_iff in Hpre as [Ha Hpre].
    rewrite <- offender_rejected in Ha.
    destruct (offender (type g) a); [discriminate|]. exact (IH Hpre).
Qed.

Lemma to_args_refused_option (pre post : dataclass) (f : Field) (u : PyVal)
  (t : PyType) (x : PyVal) :
  accepted pre = true ->
  offender (type f) u = Some (t, x) ->
  _Flag.to_args (pre ++ (f, u) :: post)%list
  = raise (ValueError_invalid (_field_name_flag f) t x).
Proof.
  intros Hpre Hu.
  rewrite to_args_first_offender,
    (first_offender_after_accepted pre post f u Hpre Hu).
  reflexivity.
Qed.

(** C2.  The encoder refuses a [bool] under a declaration that is not
    [bool] and an object that is neither [None], [bool], [str] nor [list]:
    the [ValueError] names the flag, the declared type and that value.  It
    refuses a list with a refused element, the elements being judged as
    [Optional[str]] from left to right: after elements that are not refused,
    a [bool] or such an object makes the error name the flag,
    [Optional[str]] and that element.  [None], a string and a list of
    strings are never refused, whatever the declared type: they give no
    token, the token [flag=text], and one such token per element.  For every
    value the result is the tokens of its runtime type, or the error naming
    what [offender] names, and a value is refused exactly when [rejected]
    says so.  An option set fails with the error of its first refused option
    in the order of declaration, named by the flag of that option, and
    encodes otherwise; [parse] fails exactly when the command set or the
    global set has a refused value, with the error of the command set first;
    and [cmd] then raises that error before a child is spawned, with nothing
    printed and no token produced. *)
Theorem invalid_option_value_fails_before_spawn
  (h : Host) (c : string) (input : Input) (files : option Files)
  (fc fg : option dataclass) (w : World)
  (obj : dataclass) (flag : string) (type_ : PyType) (v : PyVal) :
  (forall r : string,
      _Flag.value_to_args flag type_ (PObj r)
      = raise (ValueError_invalid flag type_ (PObj r)))
  /\ (forall b : bool,
        _Flag.value_to_args flag type_ (PBool b)
        = if _Flag.is_bool type_ then Ok (if b then [flag] else [])
          else raise (ValueError_invalid flag type_ (PBool b)))
  /\ (forall (pre : list PyVal) (r : string) (post : list PyVal),
        existsb (rejected strOpt) pre = false ->
        _Flag.value_to_args flag type_ (PList (pre ++ PObj r :: post))
        = raise (ValueError_invalid flag strOpt (PObj r)))
  /\ (forall (pre : list PyVal) (b : bool) (post : list PyVal),
        existsb (rejected strOpt) pre = false ->
        _Flag.value_to_args flag type_ (PList (pre ++ PBool b :: post))
        = raise (ValueError_invalid flag strOpt (PBool b)))
  /\ _Flag.value_to_args flag type_ PNone = Ok []
  /\ (forall s : string,
        _Flag.value_to_args flag type_ (PStr s) = Ok [flag ++ "=" ++ s])
  /\ (forall l : list string,
        _Flag.value_to_args flag type_ (PList (map PStr l))
        = Ok (map (fun e => flag ++ "=" ++ e) l))
  /\ _Flag.value_to_args flag type_ v
     = match offender type_ v with
       | Some (t, x) => raise (ValueError_invalid flag t x)
       | None => Ok (value_tokens flag v)
       end
  /\ match offender type_ v with Some _ => true | None => false end
     = rejected type_ v
  /\ _Flag.to_args obj
     = match first_offender obj with
       | Some (fl, t, x) => raise (ValueError_invalid fl t x)
       | None => Ok (set_tokens obj)
       end
  /\ match first_offender obj with Some _ => false | None => true end
     = accepted obj
  /\ (forall (pre post : dataclass) (f : Field) (u : PyVal) (t : PyType)
        (x : PyVal),
        accepted pre = true ->
        offender (type f) u = Some (t, x) ->
        _Flag.to_args (pre ++ (f, u) :: post)%list
        = raise (ValueError_invalid (_field_name_flag f) t x))
  /\ succeeds (parse fc fg)
     = match parse_offender fc fg with Some _ => false | None => true end
  /\ (forall (fl : string) (t : PyType) (x : PyVal),
        parse_offender fc fg = Some (fl, t, x) ->
        parse fc fg = raise (ValueError_invalid fl t x)
        /\ Cmd.cmd h c input files fc fg w
           = (raise (ValueError_invalid fl t x), w)).
Proof.
  split; [intros r; apply value_to_args_PObj|].
  split; [intros b; apply value_to_args_PBool|].
  split; [intros pre r post Hpre;
          now apply value_to_args_refused_element|].
  split; [intros pre b post Hpre;
          now apply value_to_args_refused_element|].
  split; [apply value_to_args_None|].
  split; [intros s; apply value_to_args_PStr|].
  split; [intros l; rewrite value_to_args_PList; apply value_to_args_str_list|].
  split; [apply value_to_args_offender|].
  split; [apply offender_rejected|].
  split; [apply to_args_first_offender|].
  split; [apply first_offender_accepted|].
  split; [intros pre post f u t x; apply to_args_refused_option|].
  split; [apply parse_succeeds|].
  intros fl t x Hoff. pose proof (parse_refused fc fg Hoff) as Hparse.
  split; [exact Hparse | now apply cmd_parse_error].
Qed.

Lemma invalid_option_value_fails_before_spawn_witness :
  (parse_offender
     (Some (Eval [("all", PBool true);
                  ("path", PList [PStr "a"; PObj "3"; PBool true])]))
     (Some (Global [("verbose", PStr "yes"); ("trace", PObj "1")]))
   = Some ("--path", strOpt, PObj "3")
   /\ Cmd.cmd (linux_host (0%Z, [], [])) "eval" (Input_str "") None
        (Some (Eval [("all", PBool true);
                     ("path", PList [PStr "a"; PObj "3"; PBool true])]))
        (Some (Global [("verbose", PStr "yes"); ("trace", PObj "1")])) world0
      = (raise (ValueError_invalid "--path" strOpt (PObj "3")), world0))
  /\ (existsb (rejected strOpt) [PStr "a"; PNone; PList [PStr "b"]] = false
      /\ _Flag.value_to_args "--inject" strListOpt
           (PList ([PStr "a"; PNone; PList [PStr "b"]] ++ PBool true :: [PObj "3"]))
         = raise (ValueError_invalid "--inject" strOpt (PBool true)))
  /\ (accepted [(flag_bool "all", PBool true); (flag_strOpt "name", PNone)] = true
      /\ offender (type (flag_strOpt "out")) (PBool false)
         = Some (strOpt, PBool false)
      /\ _Flag.to_args ([(flag_bool "all", PBool true); (flag_strOpt "name", PNone)]
                          ++ (flag_strOpt "out", PBool false)
                          :: [(flag_bool "help", PObj "1")])%list
         = raise (ValueError_invalid "--out" strOpt (PBool false))).
Proof.
  destruct (@invalid_option_value_fails_before_spawn
              (linux_host (0%Z, [], [])) "eval" (Input_str "") None
              (Some (Eval [("all", PBool true);
                           ("path", PList [PStr "a"; PObj "3"; PBool true])]))
              (Some (Global [("verbose", PStr "yes"); ("trace", PObj "1")]))
              world0 [] "--inject" strListOpt PNone)
    as (_ & _ & _ & Hlist & _ & _ & _ & _ & _ & _ & _ & Hset & _ & Hcmd).
  split; [split; [reflexivity|]|split; split; [reflexivity| |reflexivity|split; [reflexivity|]]].
  - exact (proj2 (Hcmd "--path" strOpt (PObj "3") eq_refl)).
  - exact (Hlist [PStr "a"; PNone; PList [PStr "b"]] true [PObj "3"] eq_refl).
  - exact (Hset [(flag_bool "all", PBool true); (flag_strOpt "name", PNone)]
             [(flag_bool "help", PObj "1")] (flag_strOpt "out") (PBool false)
             strOpt (PBool false) eq_refl eq_refl).
Defined.

(** C2, as stated, fails: the string ['yes'] supplied for the option [all],
    declared [bool], is encoded as [--all=yes] and the child is spawned. *)
Lemma mismatched_value_is_encoded :
  In (flag_bool "all", PStr "yes") (Eval [("all", PStr "yes")])
  /\ type (flag_bool "all") = Tbool
  /\ _Flag.to_args (Eval [("all", PStr "yes")]) = Ok ["--all=yes"]
  /\ spawned (snd (Cmd.cmd (linux_host (0%Z, [], [])) "eval" (Input_str "") None
                     (Some (Eval [("all", PStr "yes")])) None world0))
     = [(["cue"; "eval"; "-"; "--all=yes"], [])].
Proof. split; [left; reflexivity|]. repeat split. Qed.

(** C4.  The encoder does not look at the shape of a declared union: for any
    option set it either yields tokens or fails with the [ValueError] of a
    refused value, never with the unimplemented error; an option declared
    [Optional[Union[str, list[str]]]] is encoded from its value ([None], a
    string, a list of n strings) like any other.  The unimplemented error is
    raised by [_field_type] alone, which the encoder does not call. *)
Theorem union_shape_not_inspected
  (obj : dataclass) (n : string) (d : PyVal) (s : string) (l : list string) :
  ((exists toks, _Flag.to_args obj = Ok toks)
   \/ (exists flag ty v,
         _Flag.to_args obj = raise (ValueError_invalid flag ty v)))
  /\ _Flag.field_to_args {| name := n; type := strListOpt; default := d |} PNone
     = Ok []
  /\ _Flag.field_to_args {| name := n; type := strListOpt; default := d |} (PStr s)
     = Ok [_field_name_flag {| name := n; type := strListOpt; default := d |}
             ++ "=" ++ s]
  /\ _Flag.field_to_args {| name := n; type := strListOpt; default := d |}
       (PList (map PStr l))
     = Ok (map (fun e => _field_name_flag
                           {| name := n; type := strListOpt; default := d |}
                           ++ "=" ++ e) l)
  /\ _field_type {| name := n; type := strListOpt; default := d |}
     = raise NotImplementedError.
Proof.
  split; [apply to_args_outcome|].
  split; [reflexivity|]. split; [reflexivity|]. split; [|reflexivity].
  unfold _Flag.field_to_args. cbv zeta. cbn [type].
  rewrite value_to_args_PList. apply value_to_args_str_list.
Qed.

(** C4, as stated, fails: the option [expression] of [Eval] is declared
    [Optional[Union[str, list[str]]]], and the option set encodes. *)
Lemma union_declared_option_is_encoded :
  In (flag_strListOpt "expression")
     (map fst (Eval [("expression", PList [PStr "a[0]"; PStr "a[1]"])]))
  /\ type (flag_strListOpt "expression") = TUnion [Tstr; Tlist Tstr; TNoneType]
  /\ _Flag.to_args (Eval [("expression", PList [PStr "a[0]"; PStr "a[1]"])])
     = Ok ["--expression=a[0]"; "--expression=a[1]"].
Proof. split; [right; right; left; reflexivity|]. split; reflexivity. Qed.

(** ** Outcome classifier *)

Lemma check_exit_zero (h : Host) (proc : CompletedProcess.t) (input : bytes)
  (w : World) :
  CompletedProcess.returncode proc = 0%Z ->
  CalledProcessError.check h proc input w = (Ok tt, w).
Proof. intros H. unfold CalledProcessError.check. rewrite H. reflexivity. Qed.

Lemma check_spawned (h : Host) (proc : CompletedProcess.t) (input : bytes)
  (w : World) :
  spawned (snd (CalledProcessError.check h proc input w)) = spawned w.
Proof.
  unfold CalledProcessError.check.
  destruct (negb (CompletedProcess.returncode proc =? 0)%Z); [|reflexivity].
  unfold bind, lift, CalledProcessError.print, CalledProcessError.__init__,
    CalledProcessError.__post_init__, Ok, bind, lift.
  destruct (CalledProcessError.__str__ h _); reflexivity.
Qed.

(** A child killed by a signal the host knows: the message carries the
    number of the signal. *)
Lemma str_killed_by_signal (h : Host) (e : CalledProcessError_data.t) (sig : Signal) :
  (CalledProcessError_data.return_code e < 0)%Z ->
  Signals h (- CalledProcessError_data.return_code e) = Some sig ->
  CalledProcessError_data.input e = [] ->
  CalledProcessError_data.error e = [] ->
  CalledProcessError_data.output e = [] ->
  CalledProcessError.__str__ h e
  = Ok ("Subprocess " ++ join " " (CalledProcessError_data.args e)
          ++ " died with " ++ format_d (sig_value sig) ++ ".").
Proof.
  intros Hneg Hsig Hi He Ho. unfold CalledProcessError.__str__.
  destruct (Z.eqb_spec (CalledProcessError_data.return_code e) 0); [lia|].
  destruct (Z.ltb_spec (CalledProcessError_data.return_code e) 0); [|lia].
  rewrite Hsig, Hi, He, Ho. cbn [CalledProcessError.labelled rbind Ok].
  unfold format_IntEnum. rewrite !append_assoc, !append_empty_r. reflexivity.
Qed.

(** A stream contributes its labelled line only when it is not empty. *)
Lemma labelled_stream (label : string) (stream : bytes) (text : string) :
  bytes_decode stream = Ok text ->
  CalledProcessError.labelled label stream
  = Ok (match stream with
        | [] => ""
        | _ => nl ++ tab ++ label ++ tab ++ text
        end).
Proof.
  intros H. destruct stream as [|b r]; [reflexivity|].
  unfold CalledProcessError.labelled. rewrite H. reflexivity.
Qed.

(** A child that ended with a positive exit status: the message reports the
    status, then the input, the error stream and the output stream, each
    on its labelled line and only when not empty. *)
Lemma str_exit_status (h : Host) (e : CalledProcessError_data.t)
  (ti te to : string) :
  (0 < CalledProcessError_data.return_code e)%Z ->
  bytes_decode (CalledProcessError_data.input e) = Ok ti ->
  bytes_decode (CalledProcessError_data.error e) = Ok te ->
  bytes_decode (CalledProcessError_data.output e) = Ok to ->
  CalledProcessError.__str__ h e
  = Ok ("Subprocess " ++ join " " (CalledProcessError_data.args e) ++ " "
          ++ ("returned non-zero exit status "
                ++ format_d (CalledProcessError_data.return_code e) ++ ".")
          ++ match CalledProcessError_data.input e with
             | [] => ""
             | _ => nl ++ tab ++ "input:" ++ tab ++ ti
             end
          ++ match CalledProcessError_data.error e with
             | [] => ""
             | _ => nl ++ tab ++ "error:" ++ tab ++ te
             end
          ++ match CalledProcessError_data.output e with
             | [] => ""
             | _ => nl ++ tab ++ "output:" ++ tab ++ to
             end).
Proof.
  intros Hpos Hi He Ho. unfold CalledProcessError.__str__.
  destruct (Z.eqb_spec (CalledProcessError_data.return_code e) 0); [lia|].
  destruct (Z.ltb_spec (CalledProcessError_data.return_code e) 0); [lia|].
  rewrite (labelled_stream "input:" _ Hi), (labelled_stream "error:" _ He),
    (labelled_stream "output:" _ Ho).
  reflexivity.
Qed.

(** A child killed by a signal the host does not know. *)
Lemma str_unknown_signal (h : Host) (e : CalledProcessError_data.t) :
  (CalledProcessError_data.return_code e < 0)%Z ->
  Signals h (- CalledProcessError_data.return_code e) = None ->
  CalledProcessError_data.input e = [] ->
  CalledProcessError_data.error e = [] ->
  CalledProcessError_data.output e = [] ->
  CalledProcessError.__str__ h e
  = Ok ("Subprocess " ++ join " " (CalledProcessError_data.args e)
          ++ " died with unknown signal "
          ++ format_d (- CalledProcessError_data.return_code e) ++ ".").
Proof.
  intros Hneg Hsig Hi He Ho. unfold CalledProcessError.__str__.
  destruct (Z.eqb_spec (CalledProcessError_data.return_code e) 0); [lia|].
  destruct (Z.ltb_spec (CalledProcessError_data.return_code e) 0); [|lia].
  rewrite Hsig, Hi, He, Ho. cbn [CalledProcessError.labelled rbind Ok].
  rewrite !append_assoc, !append_empty_r. reflexivity.
Qed.

Example str_exit_status_2 :
  CalledProcessError.__str__ (linux_host (2, [], [])%Z)
    (CalledProcessError_data.mk (str_encode "a: 1") ["cue"; "vet"; "-"] 2 []
       (str_encode "bad"))
  = Ok ("Subprocess cue vet - returned non-zero exit status 2."
          ++ nl ++ tab ++ "input:" ++ tab ++ "a: 1"
          ++ nl ++ tab ++ "error:" ++ tab ++ "bad").
Proof. reflexivity. Qed.

(** C3.  Building the error from an outcome with exit code 0 succeeds and
    gives an object whose return code is 0; it is rendering that object
    which fails, with the [ValueError] for return code 0; and [check] does
    not build it. *)
Theorem error_for_exit_zero (h : Host) (proc : CompletedProcess.t)
  (input : bytes) (w : World) :
  CompletedProcess.returncode proc = 0%Z ->
  exists e,
    CalledProcessError.__init__ proc input = Ok e
    /\ CalledProcessError_data.return_code e = 0%Z
    /\ CalledProcessError.__str__ h e = raise ValueError_return_code_0
    /\ CalledProcessError.check h proc input w = (Ok tt, w).
Proof.
  intros H. eexists. split; [reflexivity|]. cbn.
  split; [exact H|]. split; [|now apply check_exit_zero].
  unfold CalledProcessError.__str__. cbn. rewrite H. reflexivity.
Qed.

Lemma error_for_exit_zero_witness :
  CompletedProcess.returncode (CompletedProcess.mk ["cue"; "eval"; "-"] 0 [] []) = 0%Z
  /\ exists e,
       CalledProcessError.__init__
         (CompletedProcess.mk ["cue"; "eval"; "-"] 0 [] []) [] = Ok e
       /\ CalledProcessError_data.return_code e = 0%Z
       /\ CalledProcessError.__str__ (linux_host (0%Z, [], [])) e
          = raise ValueError_return_code_0
       /\ CalledProcessError.check (linux_host (0%Z, [], []))
            (CompletedProcess.mk ["cue"; "eval"; "-"] 0 [] []) [] world0
          = (Ok tt, world0).
Proof.
  split; [reflexivity|].
  exact (@error_for_exit_zero (linux_host (0%Z, [], []))
           (CompletedProcess.mk ["cue"; "eval"; "-"] 0 [] []) [] world0 eq_refl).
Defined.

(** C3, as stated, fails: the constructor returns an error object for an
    outcome with exit code 0. *)
Lemma error_object_with_exit_zero :
  CalledProcessError.__init__ (CompletedProcess.mk ["cue"; "eval"; "-"] 0 [] []) []
  = Ok (CalledProcessError_data.mk [] ["cue"; "eval"; "-"] 0 [] []).
Proof. reflexivity. Qed.

(** C9.  On a Linux host, for a child killed by signal 9 ([SIGKILL]),
    [check] raises the error and prints its message, which is
    [Subprocess cue eval - died with 9.]: it holds neither the name of the
    signal nor the text [unknown signal]. *)
Theorem signal_message_has_no_name :
  Signals (linux_host (-9, [], [])%Z) 9
  = Some {| sig_name := "SIGKILL"; sig_value := 9 |}
  /\ CalledProcessError.__str__ (linux_host (-9, [], [])%Z)
       (CalledProcessError_data.mk [] ["cue"; "eval"; "-"] (-9) [] [])
     = Ok "Subprocess cue eval - died with 9."
  /\ occurs "SIGKILL" "Subprocess cue eval - died with 9." = false
  /\ occurs "unknown signal" "Subprocess cue eval - died with 9." = false
  /\ Cmd.cmd (linux_host (-9, [], [])%Z) "eval" (Input_str "") None None None world0
     = (raise (Raised_CalledProcessError
                 (CalledProcessError_data.mk [] ["cue"; "eval"; "-"] (-9) [] [])),
        {| spawned := [(["cue"; "eval"; "-"], [])];
           printed := ["Subprocess cue eval - died with 9."] |}).
Proof. repeat split. Qed.

(** ** Command builder *)

Lemma parse_file_Input (f : FileStr) :
  Cmd.parse_file f File.Input = spec_render_FileStr f.
Proof.
  destruct f as [[p e] | s | p]; cbn [Cmd.parse_file spec_render_FileStr];
    [apply File_to_args_Input | reflexivity | reflexivity].
Qed.

Lemma parse_files_Input (files : option Files) :
  Cmd.parse_files files File.Input = spec_file_tokens files.
Proof.
  destruct files as [[f | l] |]; [| | reflexivity].
  - destruct f as [[p e] | s | p]; cbn.
    + apply File_to_args_Input.
    + destruct s; reflexivity.
    + reflexivity.
  - destruct l as [|f l]; [reflexivity|].
    unfold Cmd.parse_files. cbn [Cmd.truthy_files spec_file_tokens].
    rewrite flat_map_concat_map. f_equal.
    apply map_ext. intros x. apply parse_file_Input.
Qed.

Lemma input_args_spec (input : Input) :
  Cmd.input_args input = spec_input_tokens input.
Proof.
  destruct input as [s | [cts e]]; [reflexivity|].
  cbn [Cmd.input_args spec_input_tokens Stdin.to_args Stdin.encoding].
  apply File_to_args_Input.
Qed.

Lemma cmd_spawned (h : Host) (c : string) (input : Input) (files : option Files)
  (fc fg : option dataclass) (w : World) (opts : list string) :
  parse fc fg = Ok opts ->
  spawned (snd (Cmd.cmd h c input files fc fg w))
  = (spawned w
       ++ [((["cue"; c] ++ Cmd.parse_files files File.Input
               ++ Cmd.input_args input ++ opts)%list,
            Cmd.input_encode input)])%list.
Proof.
  intros Hparse. unfold Cmd.cmd, bind at 1, lift at 1. rewrite Hparse.
  unfold Ok at 1. unfold bind at 1, sp_run.
  destruct (child h _ _) as [[code out] err].
  unfold Ok at 1. cbv beta iota. unfold bind at 1.
  match goal with
  | |- context [CalledProcessError.check ?h ?p ?i ?w0] =>
      pose proof (check_spawned h p i w0) as Hs;
      destruct (CalledProcessError.check h p i w0) as [[x | []] w1]
  end; cbn [snd] in Hs |- *; unfold lift; cbn [snd]; exact Hs.
Qed.

(** C8.  When the option tokens are [opts], [cmd] starts one child whose
    argument vector is the binary name and the subcommand name, then the
    Input-mode file tokens (none for absent or empty [files], the renderings
    of a list in order), then the input tokens ([-] for a bare string, the
    descriptor's Input-mode tokens otherwise), then [opts]; its payload is
    the UTF-8 encoding of the supplied input text. *)
Theorem cmd_invocation (h : Host) (c : string) (input : Input)
  (files : option Files) (fc fg : option dataclass) (w : World)
  (opts : list string) :
  parse fc fg = Ok opts ->
  spawned (snd (Cmd.cmd h c input files fc fg w))
  = (spawned w
       ++ [("cue" :: c :: spec_file_tokens files ++ spec_input_tokens input ++ opts,
            str_encode (input_text input))])%list.
Proof.
  intros Hparse. rewrite (cmd_spawned h c input files fc fg w Hparse).
  rewrite parse_files_Input, input_args_spec.
  destruct input; reflexivity.
Qed.

Lemma cmd_invocation_witness :
  parse (Some (Eval [("expression", PList [PStr "a[0]"; PStr "a[1]"])])) None
  = Ok ["--expression=a[0]"; "--expression=a[1]"]
  /\ spawned (snd (Cmd.cmd (linux_host (0%Z, [], [])) "eval"
                     (Input_Stdin (Stdin.mk "a: [ 1 ]" File.Encodings.JSON))
                     (Some (Files_list
                              [FileStr_File (File.mk "a.json" File.Encodings.JSON);
                               FileStr_str "b.cue"]))
                     (Some (Eval [("expression", PList [PStr "a[0]"; PStr "a[1]"])]))
                     None world0))
     = [(["cue"; "eval"; "json:"; "a.json"; "b.cue"; "json:"; "-";
          "--expression=a[0]"; "--expression=a[1]"],
         str_encode "a: [ 1 ]")].
Proof.
  split; [reflexivity|].
  exact (@cmd_invocation (linux_host (0%Z, [], [])) "eval"
           (Input_Stdin (Stdin.mk "a: [ 1 ]" File.Encodings.JSON))
           (Some (Files_list
                    [FileStr_File (File.mk "a.json" File.Encodings.JSON);
                     FileStr_str "b.cue"]))
           (Some (Eval [("expression", PList [PStr "a[0]"; PStr "a[1]"])]))
           None world0 ["--expression=a[0]"; "--expression=a[1]"] eq_refl).
Defined.

(** C10.  With the empty string as input, the argument vector still holds
    the placeholder [-], right after the file tokens and before the option
    tokens, and the payload is the empty byte string. *)
Theorem empty_input_placeholder (h : Host) (c : string) (files : option Files)
  (fc fg : option dataclass) (w : World) (opts : list string) :
  parse fc fg = Ok opts ->
  spawned (snd (Cmd.cmd h c (Input_str "") files fc fg w))
  = (spawned w
       ++ [((["cue"; c] ++ Cmd.parse_files files File.Input ++ ["-"] ++ opts)%list,
            [])])%list.
Proof.
  intros Hparse. exact (cmd_spawned h c (Input_str "") files fc fg w Hparse).
Qed.

Lemma empty_input_placeholder_witness :
  parse None (Some (Global [("verbose", PBool true)])) = Ok ["--verbose"]
  /\ spawned (snd (Cmd.cmd (linux_host (0%Z, [], [])) "vet" (Input_str "")
                     (Some (Files_one (FileStr_str "x.cue")))
                     None (Some (Global [("verbose", PBool true)])) world0))
     = [(["cue"; "vet"; "x.cue"; "-"; "--verbose"], [])].
Proof.
  split; [reflexivity|].
  exact (@empty_input_placeholder (linux_host (0%Z, [], [])) "vet"
           (Some (Files_one (FileStr_str "x.cue")))
           None (Some (Global [("verbose", PBool true)])) world0
           ["--verbose"] eq_refl).
Defined.

(** * Further properties of the code *)

(** ** Encoder *)

Lemma chain_from_iterable_app {A} (a b : list (result (list A))) :
  chain_from_iterable (a ++ b)%list
  = (xs <- chain_from_iterable a ;;
     ys <- chain_from_iterable b ;;
     Ok (xs ++ ys)%list)%res.
Proof.
  induction a as [|x a IH]; cbn [app chain_from_iterable].
  - unfold Ok at 1. cbn [rbind]. destruct (chain_from_iterable b); reflexivity.
  - rewrite IH. destruct x as [e | xs]; [reflexivity|]. cbn [rbind].
    destruct (chain_from_iterable a) as [e | ys]; [reflexivity|]. cbn [rbind].
    destruct (chain_from_iterable b) as [e | zs]; [reflexivity|].
    unfold Ok. cbn [rbind]. now rewrite List.app_assoc.
Qed.

Lemma value_to_args_succeeds (flag : string) (type_ : PyType) (v : PyVal) :
  succeeds (_Flag.value_to_args flag type_ v) = negb (rejected type_ v).
Proof.
  destruct (value_to_args_rejected_iff v flag type_) as [Hbad Hgood].
  destruct (rejected type_ v).
  - destruct (Hbad eq_refl) as (v' & ->). reflexivity.
  - destruct (Hgood eq_refl) as (toks & ->). reflexivity.
Qed.

(** X1.  An option set encodes exactly when none of its values is refused
    (a bool under a declaration that is not bool, an object that is neither
    None, bool, str nor list, or a list with such an element). *)
Theorem to_args_succeeds_iff_accepted (obj : dataclass) :
  succeeds (_Flag.to_args obj) = accepted obj.
Proof.
  induction obj as [|[g u] obj IH]; [reflexivity|].
  rewrite to_args_cons. cbn [accepted forallb fst snd].
  fold (accepted obj). rewrite <- IH, <- value_to_args_succeeds with (flag := _field_name_flag g).
  destruct (_Flag.value_to_args (_field_name_flag g) (type g) u); [reflexivity|].
  cbn [rbind succeeds andb]. destruct (_Flag.to_args obj); reflexivity.
Qed.

(** X2.  Encoding follows the order of declaration: the encoding of two runs
    of options put one after the other is the encoding of the first followed
    by the encoding of the second, and it fails with the first failure. *)
Theorem to_args_app (a b : dataclass) :
  _Flag.to_args (a ++ b)%list
  = (xs <- _Flag.to_args a ;;
     ys <- _Flag.to_args b ;;
     Ok (xs ++ ys)%list)%res.
Proof.
  unfold _Flag.to_args. rewrite map_app. apply chain_from_iterable_app.
Qed.

Lemma prefix_append (a b : string) : prefix a (a ++ b) = true.
Proof.
  induction a as [|x a IH]; cbn; [now destruct b|].
  destruct (ascii_dec x x) as [_ | Hx]; [exact IH | now elim Hx].
Qed.

Lemma is_flag_token_assign (flag s : string) :
  is_flag_token flag (flag ++ "=" ++ s) = true.
Proof.
  unfold is_flag_token.
  replace (flag ++ "=" ++ s) with ((flag ++ "=") ++ s) by apply append_assoc.
  rewrite prefix_append. apply orb_true_r.
Qed.

Lemma value_to_args_tokens (v : PyVal) :
  forall (flag : string) (type_ : PyType) (toks : list string),
    _Flag.value_to_args flag type_ v = Ok toks ->
    Forall (fun tok => is_flag_token flag tok = true) toks.
Proof.
  induction v as [| b | s | l IH | r] using PyVal_forall_ind;
    intros flag type_ toks.
  - rewrite value_to_args_None. intros [= <-]. constructor.
  - rewrite value_to_args_PBool.
    destruct (_Flag.is_bool type_); [|discriminate].
    intros [= <-]. destruct b; repeat constructor.
    unfold is_flag_token. now rewrite String.eqb_refl.
  - rewrite value_to_args_PStr. intros [= <-]. repeat constructor.
    apply is_flag_token_assign.
  - rewrite value_to_args_PList. clear type_. revert toks.
    induction IH as [|x l Hx _ IHl]; intros toks;
      cbn [map chain_from_iterable].
    + intros [= <-]. constructor.
    + destruct (_Flag.value_to_args flag strOpt x) as [e | xs] eqn:Ex;
        [discriminate|]. cbn [rbind].
      destruct (chain_from_iterable (map (_Flag.value_to_args flag strOpt) l))
        as [e | ys]; [discriminate|].
      intros [= <-]. apply Forall_app. split.
      * exact (Hx flag strOpt xs Ex).
      * now apply IHl.
  - rewrite value_to_args_PObj. discriminate.
Qed.

(** X3.  Every token of an encoded option set is the flag of one of its
    declared options, bare or followed by [=] and a text. *)
Theorem to_args_tokens_are_flags (obj : dataclass) (toks : list string) :
  _Flag.to_args obj = Ok toks ->
  Forall (fun tok => exists f, In f (map fst obj)
                               /\ is_flag_token (_field_name_flag f) tok = true)
         toks.
Proof.
  revert toks. induction obj as [|[g u] obj IH]; intros toks.
  - intros [= <-]. constructor.
  - rewrite to_args_cons.
    destruct (_Flag.value_to_args (_field_name_flag g) (type g) u)
      as [e | xs] eqn:Ex; [discriminate|]. cbn [rbind].
    destruct (_Flag.to_args obj) as [e | ys]; [discriminate|].
    intros [= <-]. apply Forall_app. split.
    + eapply Forall_impl; [|exact (value_to_args_tokens u _ _ Ex)].
      intros tok Htok. exists g. split; [now left | exact Htok].
    + eapply Forall_impl; [|exact (IH ys eq_refl)].
      intros tok (f & Hf & Htok). exists f. split; [now right | exact Htok].
Qed.

Lemma to_args_tokens_are_flags_witness :
  _Flag.to_args (Eval [("list_", PBool true); ("out", PStr "json")])
  = Ok ["--list"; "--out=json"]
  /\ Forall (fun tok => exists f,
                In f (map fst (Eval [("list_", PBool true); ("out", PStr "json")]))
                /\ is_flag_token (_field_name_flag f) tok = true)
            ["--list"; "--out=json"].
Proof.
  split; [reflexivity|].
  exact (@to_args_tokens_are_flags
           (Eval [("list_", PBool true); ("out", PStr "json")])
           ["--list"; "--out=json"] eq_refl).
Defined.

(** X4.  A list nested in a list value is flattened, and a string is encoded
    like the list holding just that string. *)
Theorem value_to_args_flattens (flag : string) (type_ : PyType)
  (l r : list PyVal) (s : string) :
  _Flag.value_to_args flag type_ (PList (PList l :: r))
  = _Flag.value_to_args flag type_ (PList (l ++ r))
  /\ _Flag.value_to_args flag type_ (PStr s)
     = _Flag.value_to_args flag type_ (PList [PStr s]).
Proof.
  split.
  - rewrite !value_to_args_PList, map_app, chain_from_iterable_app.
    cbn [map chain_from_iterable]. now rewrite value_to_args_PList.
  - now rewrite value_to_args_PStr, value_to_args_PList.
Qed.

Lemma new_cons (f : Field) (fields : list Field) (kwargs : list (string * PyVal)) :
  new (f :: fields) kwargs
  = (f, match kwarg kwargs (name f) with
        | Some v => v
        | None => default f
        end) :: new fields kwargs.
Proof. reflexivity. Qed.

Lemma unset_default_encodes_to_nothing (f : Field) :
  unset_default f = true ->
  _Flag.value_to_args (_field_name_flag f) (type f) (default f) = Ok [].
Proof.
  unfold unset_default. destruct (default f) as [| [|] | | |]; try discriminate.
  - intros _. apply value_to_args_None.
  - intros H. rewrite value_to_args_PBool, H. reflexivity.
Qed.

Lemma to_args_defaults (fields : list Field) :
  forallb unset_default fields = true ->
  _Flag.to_args (new fields []) = Ok [].
Proof.
  induction fields as [|f fields IH]; [reflexivity|].
  cbn [forallb]. intros [Hf Hrest]%andb_true_iff.
  rewrite new_cons, to_args_cons. cbn [kwarg].
  rewrite (unset_default_encodes_to_nothing f Hf), (IH Hrest). reflexivity.
Qed.

(** X5.  An option set built without arguments encodes to no token at all,
    provided every default is None, or False for a bool option; this is so
    for the four option sets of the source. *)
Theorem default_options_encode_to_nothing (fields : list Field) :
  forallb unset_default fields = true ->
  _Flag.to_args (new fields []) = Ok []
  /\ parse (Some (new fields [])) None = Ok [].
Proof.
  intros H. split; [now apply to_args_defaults|].
  unfold parse. rewrite (to_args_defaults fields H). reflexivity.
Qed.

Lemma default_options_encode_to_nothing_witness :
  (forallb unset_default Global_fields = true
   /\ forallb unset_default Eval_fields = true
   /\ forallb unset_default Def_fields = true
   /\ forallb unset_default Vet_fields = true)
  /\ _Flag.to_args (Global []) = Ok []
  /\ _Flag.to_args (Eval []) = Ok []
  /\ _Flag.to_args (Def []) = Ok []
  /\ _Flag.to_args (Vet []) = Ok [].
Proof.
  split; [repeat split|].
  split; [exact (proj1 (@default_options_encode_to_nothing Global_fields eq_refl))|].
  split; [exact (proj1 (@default_options_encode_to_nothing Eval_fields eq_refl))|].
  split; [exact (proj1 (@default_options_encode_to_nothing Def_fields eq_refl))|].
  exact (proj1 (@default_options_encode_to_nothing Vet_fields eq_refl)).
Defined.

Lemma new_other_kwarg (fields : list Field) (n : string) (v : PyVal) :
  existsb (String.eqb n) (map name fields) = false ->
  new fields [(n, v)] = new fields [].
Proof.
  induction fields as [|g fields IH]; [reflexivity|].
  cbn [map existsb]. intros [Hg Hrest]%orb_false_iff.
  rewrite !new_cons, (IH Hrest). cbn [kwarg]. now rewrite Hg.
Qed.

Lemma existsb_name_false (fields : list Field) (n : string) (f : Field) :
  existsb (String.eqb n) (map name fields) = false ->
  In f fields -> String.eqb n (name f) = false.
Proof.
  induction fields as [|g fields IH]; [contradiction|].
  cbn [map existsb]. intros [Hg Hrest]%orb_false_iff [-> | Hin];
    [exact Hg | now apply IH].
Qed.

(** X6.  In an option set whose options have different names and unset
    defaults, giving a value to one declared option yields exactly the
    encoding of that value under that option's flag and declared type; the
    other options contribute nothing. *)
Theorem single_option_encoding (fields : list Field) (f : Field) (v : PyVal) :
  distinct (map name fields) = true ->
  forallb unset_default fields = true ->
  In f fields ->
  _Flag.to_args (new fields [(name f, v)])
  = _Flag.value_to_args (_field_name_flag f) (type f) v.
Proof.
  induction fields as [|g fields IH]; [contradiction|].
  cbn [map distinct forallb].
  intros [Hg Hdist]%andb_true_iff [Ug Urest]%andb_true_iff Hin.
  apply negb_true_iff in Hg.
  rewrite new_cons, to_args_cons. cbn [kwarg].
  destruct Hin as [-> | Hin].
  - rewrite String.eqb_refl, (new_other_kwarg fields (name f) v Hg),
      (to_args_defaults fields Urest).
    destruct (_Flag.value_to_args (_field_name_flag f) (type f) v) as [e | xs];
      [reflexivity|].
    cbn [rbind]. unfold Ok. cbn [rbind]. now rewrite List.app_nil_r.
  - assert (Hne : String.eqb (name f) (name g) = false).
    { rewrite String.eqb_sym. now apply (existsb_name_false fields). }
    rewrite Hne, (unset_default_encodes_to_nothing g Ug), (IH Hdist Urest Hin).
    unfold Ok at 1. cbn [rbind].
    destruct (_Flag.value_to_args (_field_name_flag f) (type f) v); reflexivity.
Qed.

Lemma single_option_encoding_witness :
  distinct (map name Eval_fields) = true
  /\ forallb unset_default Eval_fields = true
  /\ In (flag_strListOpt "proto_path") Eval_fields
  /\ _Flag.to_args (Eval [("proto_path", PList [PStr "a"; PStr "b"])])
     = Ok ["--proto-path=a"; "--proto-path=b"].
Proof.
  assert (Hin : In (flag_strListOpt "proto_path") Eval_fields).
  { do 12 right. left. reflexivity. }
  split; [reflexivity|]. split; [reflexivity|]. split; [exact Hin|].
  exact (@single_option_encoding Eval_fields (flag_strListOpt "proto_path")
           (PList [PStr "a"; PStr "b"]) eq_refl eq_refl Hin).
Defined.

(** With one flag set supplied, [parse] returns the encoding of that
    set, tokens or error, whichever position it is supplied in; with none it
    returns no token. *)
Lemma parse_one_set (obj : dataclass) :
  parse (Some obj) None = _Flag.to_args obj
  /\ parse None (Some obj) = _Flag.to_args obj
  /\ parse None None = Ok [].
Proof.
  split; [|split; reflexivity].
  unfold parse. destruct (_Flag.to_args obj) as [e | toks]; [reflexivity|].
  cbn [rbind]. now rewrite List.app_nil_r.
Qed.

Lemma rstrip_absorbs_underscores (s : string) (k : nat) :
  rstrip (s ++ underscores k) "_" = rstrip s "_".
Proof.
  induction s as [|a s IH]; cbn [append rstrip].
  - apply rstrip_underscores.
  - now rewrite IH.
Qed.

Lemma replace_has_no_underscore (s : string) :
  mem_ascii "_" (replace s "_" "-") = false.
Proof.
  unfold mem_ascii. induction s as [|a s IH]; [reflexivity|].
  cbn [replace list_ascii_of_string existsb]. rewrite IH, orb_false_r.
  destruct (Ascii.eqb a "_") eqn:Ha; [reflexivity|].
  now rewrite Ascii.eqb_sym.
Qed.

(** X7.  A derived flag starts with [--] and holds no underscore, and
    underscores added at the end of an option's name do not change its flag
    (so [list] and [list_] share one flag). *)
Theorem field_name_flag_shape (n : string) (t : PyType) (d : PyVal) (k : nat) :
  prefix "--" (_field_name_flag {| name := n; type := t; default := d |}) = true
  /\ mem_ascii "_" (_field_name_flag {| name := n; type := t; default := d |})
     = false
  /\ _field_name_flag {| name := n ++ underscores k; type := t; default := d |}
     = _field_name_flag {| name := n; type := t; default := d |}.
Proof.
  unfold _field_name_flag. cbn [name]. split; [apply prefix_append|]. split.
  - pose proof (replace_has_no_underscore (rstrip n "_")) as H.
    unfold mem_ascii in *. cbn. exact H.
  - now rewrite rstrip_absorbs_underscores.
Qed.

(** ** Files *)

Lemma parse_files_list (l : list FileStr) (mode : File.Mode) :
  Cmd.parse_files (Some (Files_list l)) mode
  = concat (map (fun file => Cmd.parse_file file mode) l).
Proof. destruct l; reflexivity. Qed.

Lemma parse_file_length (f : FileStr) :
  length (Cmd.parse_file f File.Output) = 1
  /\ 1 <= length (Cmd.parse_file f File.Input) <= 2.
Proof.
  destruct f as [[p []] | s | p]; cbn; repeat split; repeat constructor.
Qed.

(** X8.  A list of files renders file by file, in order: the rendering of
    two lists put one after the other is the two renderings put one after
    the other.  In Output mode n files give n tokens; in Input mode they
    give between n and 2n tokens. *)
Theorem parse_files_list_rendering (a b : list FileStr) (mode : File.Mode) :
  Cmd.parse_files (Some (Files_list (a ++ b))) mode
  = (Cmd.parse_files (Some (Files_list a)) mode
       ++ Cmd.parse_files (Some (Files_list b)) mode)%list
  /\ length (Cmd.parse_files (Some (Files_list a)) File.Output) = length a
  /\ length a <= length (Cmd.parse_files (Some (Files_list a)) File.Input)
     <= 2 * length a.
Proof.
  rewrite !parse_files_list. split; [now rewrite map_app, concat_app|].
  induction a as [|f a [IHo IHi]]; cbn [map concat length];
    [repeat split; constructor|].
  rewrite !length_app.
  destruct (parse_file_length f) as [Ho Hi]. split; lia.
Qed.

(** X9.  A single file renders like the list holding just that file, in
    either mode, unless it is the empty string: alone the empty string
    renders to no token, inside a list to the empty token. *)
Theorem single_file_as_list (f : FileStr) (mode : File.Mode) :
  Cmd.truthy_files (Some (Files_one f)) = true ->
  Cmd.parse_files (Some (Files_one f)) mode
  = Cmd.parse_files (Some (Files_list [f])) mode
  /\ Cmd.parse_files (Some (Files_one (FileStr_str ""))) mode = []
  /\ Cmd.parse_files (Some (Files_list [FileStr_str ""])) mode = [""].
Proof.
  intros H. split; [|split; reflexivity].
  unfold Cmd.parse_files. rewrite H. cbn [Cmd.truthy_files map concat].
  now rewrite List.app_nil_r.
Qed.

Lemma single_file_as_list_witness :
  Cmd.truthy_files
    (Some (Files_one (FileStr_File (File.mk "a.yaml" File.Encodings.YAMl)))) = true
  /\ Cmd.parse_files
       (Some (Files_one (FileStr_File (File.mk "a.yaml" File.Encodings.YAMl))))
       File.Input
     = Cmd.parse_files
         (Some (Files_list [FileStr_File (File.mk "a.yaml" File.Encodings.YAMl)]))
         File.Input.
Proof.
  split; [reflexivity|].
  exact (proj1 (@single_file_as_list
                  (FileStr_File (File.mk "a.yaml" File.Encodings.YAMl))
                  File.Input eq_refl)).
Defined.

(** ** Outcome classifier, continued *)

Lemma labelled_succeeds (label : string) (stream : bytes) :
  succeeds (CalledProcessError.labelled label stream) = decodable stream.
Proof.
  destruct stream as [|b r]; [reflexivity|].
  unfold CalledProcessError.labelled, bytes_decode, decodable.
  destruct (utf8_valid _); reflexivity.
Qed.

Lemma labelled_undecodable (label : string) (stream : bytes) :
  decodable stream = false ->
  CalledProcessError.labelled label stream = raise UnicodeDecodeError.
Proof.
  destruct stream as [|b r]; [discriminate|].
  unfold CalledProcessError.labelled, bytes_decode, decodable.
  now intros ->.
Qed.

Lemma labelled_error (label : string) (stream : bytes) (e : exception) :
  CalledProcessError.labelled label stream = inl e -> e = UnicodeDecodeError.
Proof.
  destruct stream as [|b r]; [discriminate|].
  unfold CalledProcessError.labelled, bytes_decode.
  destruct (utf8_valid _); cbn; [discriminate | now intros [= <-]].
Qed.

(** X10.  Rendering the error succeeds exactly when its return code is not
    0 and its input, error stream and output stream are well-formed UTF-8. *)
Theorem str_succeeds_iff (h : Host) (e : CalledProcessError_data.t) :
  succeeds (CalledProcessError.__str__ h e)
  = negb (CalledProcessError_data.return_code e =? 0)%Z
    && decodable (CalledProcessError_data.input e)
    && decodable (CalledProcessError_data.error e)
    && decodable (CalledProcessError_data.output e).
Proof.
  rewrite <- (labelled_succeeds "input:" (CalledProcessError_data.input e)),
    <- (labelled_succeeds "error:" (CalledProcessError_data.error e)),
    <- (labelled_succeeds "output:" (CalledProcessError_data.output e)).
  unfold CalledProcessError.__str__.
  destruct (CalledProcessError_data.return_code e =? 0)%Z; [reflexivity|].
  cbn [negb andb].
  destruct (CalledProcessError.labelled "input:" _); [reflexivity|].
  destruct (CalledProcessError.labelled "error:" _); [reflexivity|].
  destruct (CalledProcessError.labelled "output:" _); reflexivity.
Qed.

(** X11.  [check] returns normally exactly when the exit code is 0; for any
    other exit code it raises, and it never starts a child. *)
Theorem check_succeeds_iff (h : Host) (proc : CompletedProcess.t)
  (input : bytes) (w : World) :
  succeeds (fst (CalledProcessError.check h proc input w))
  = (CompletedProcess.returncode proc =? 0)%Z
  /\ spawned (snd (CalledProcessError.check h proc input w)) = spawned w.
Proof.
  split; [|apply check_spawned].
  unfold CalledProcessError.check.
  destruct (CompletedProcess.returncode proc =? 0)%Z; [reflexivity|].
  cbn [negb]. unfold bind, lift, CalledProcessError.print,
    CalledProcessError.__init__, CalledProcessError.__post_init__, Ok, bind, lift.
  destruct (CalledProcessError.__str__ h _); reflexivity.
Qed.

(** X12.  For a positive exit status whose streams decode, the message is
    [Subprocess <argv joined by spaces> returned non-zero exit status <n>.]
    followed by the input, the error stream and the output stream, in that
    order, each on its own labelled line and only when not empty. *)
Theorem exit_status_message (h : Host) (e : CalledProcessError_data.t)
  (ti te to : string) :
  (0 < CalledProcessError_data.return_code e)%Z ->
  bytes_decode (CalledProcessError_data.input e) = Ok ti ->
  bytes_decode (CalledProcessError_data.error e) = Ok te ->
  bytes_decode (CalledProcessError_data.output e) = Ok to ->
  CalledProcessError.__str__ h e
  = Ok ("Subprocess " ++ join " " (CalledProcessError_data.args e) ++ " "
          ++ ("returned non-zero exit status "
                ++ format_d (CalledProcessError_data.return_code e) ++ ".")
          ++ match CalledProcessError_data.input e with
             | [] => ""
             | _ => nl ++ tab ++ "input:" ++ tab ++ ti
             end
          ++ match CalledProcessError_data.error e with
             | [] => ""
             | _ => nl ++ tab ++ "error:" ++ tab ++ te
             end
          ++ match CalledProcessError_data.output e with
             | [] => ""
             | _ => nl ++ tab ++ "output:" ++ tab ++ to
             end).
Proof. apply str_exit_status. Qed.

Lemma exit_status_message_witness :
  (0 < 1)%Z
  /\ bytes_decode (str_encode "x: 1") = Ok "x: 1"
  /\ bytes_decode [] = Ok ""
  /\ bytes_decode (str_encode "oops") = Ok "oops"
  /\ CalledProcessError.__str__ (linux_host (1, [], [])%Z)
       (CalledProcessError_data.mk (str_encode "x: 1") ["cue"; "vet"; "-"] 1
          (str_encode "oops") [])
     = Ok ("Subprocess cue vet - returned non-zero exit status 1."
             ++ nl ++ tab ++ "input:" ++ tab ++ "x: 1"
             ++ nl ++ tab ++ "output:" ++ tab ++ "oops").
Proof.
  split; [reflexivity|]. split; [reflexivity|]. split; [reflexivity|].
  split; [reflexivity|].
  exact (@exit_status_message (linux_host (1, [], [])%Z)
           (CalledProcessError_data.mk (str_encode "x: 1") ["cue"; "vet"; "-"] 1
              (str_encode "oops") [])
           "x: 1" "" "oops" eq_refl eq_refl eq_refl eq_refl).
Defined.

(** X13.  For a negative exit code whose number the host maps to no signal,
    and empty streams, the message is
    [Subprocess <argv joined by spaces> died with unknown signal <n>.] *)
Theorem unknown_signal_message (h : Host) (e : CalledProcessError_data.t) :
  (CalledProcessError_data.return_code e < 0)%Z ->
  Signals h (- CalledProcessError_data.return_code e) = None ->
  CalledProcessError_data.input e = [] ->
  CalledProcessError_data.error e = [] ->
  CalledProcessError_data.output e = [] ->
  CalledProcessError.__str__ h e
  = Ok ("Subprocess " ++ join " " (CalledProcessError_data.args e)
          ++ " died with unknown signal "
          ++ format_d (- CalledProcessError_data.return_code e) ++ ".").
Proof. apply str_unknown_signal. Qed.

Lemma unknown_signal_message_witness :
  (-33 < 0)%Z
  /\ Signals (linux_host (-33, [], [])%Z) 33 = None
  /\ CalledProcessError.__str__ (linux_host (-33, [], [])%Z)
       (CalledProcessError_data.mk [] ["cue"; "def"; "-"] (-33) [] [])
     = Ok "Subprocess cue def - died with unknown signal 33.".
Proof.
  split; [reflexivity|]. split; [reflexivity|].
  exact (@unknown_signal_message (linux_host (-33, [], [])%Z)
           (CalledProcessError_data.mk [] ["cue"; "def"; "-"] (-33) [] [])
           eq_refl eq_refl eq_refl eq_refl eq_refl).
Defined.

(** ** The whole command *)

Lemma cmd_after_spawn (h : Host) (c : string) (input : Input)
  (files : option Files) (fc fg : option dataclass) (w : World)
  (opts : list string) (code : Z) (out err : bytes) :
  parse fc fg = Ok opts ->
  child h (cmd_argv c input files opts) (Cmd.input_encode input) = (code, out, err) ->
  Cmd.cmd h c input files fc fg w
  = bind (CalledProcessError.check h
            (CompletedProcess.mk (cmd_argv c input files opts) code out err)
            (Cmd.input_encode input))
         (fun _ => lift (bytes_decode out))
         (after_spawn w (cmd_argv c input files opts) (Cmd.input_encode input)).
Proof.
  intros Hparse Hchild. unfold Cmd.cmd, bind at 1, lift at 1. rewrite Hparse.
  unfold Ok at 1. unfold bind at 1, sp_run. fold (cmd_argv c input files opts).
  rewrite Hchild. reflexivity.
Qed.

(** X14.  When the child exits with status 0 and its output is well-formed
    UTF-8, [cmd] returns the decoded output, whatever the child wrote on its
    error stream; one child has been started and nothing has been printed. *)
Theorem cmd_success (h : Host) (c : string) (input : Input)
  (files : option Files) (fc fg : option dataclass) (w : World)
  (opts : list string) (out err : bytes) (text : string) :
  parse fc fg = Ok opts ->
  child h (cmd_argv c input files opts) (Cmd.input_encode input) = (0%Z, out, err) ->
  bytes_decode out = Ok text ->
  Cmd.cmd h c input files fc fg w
  = (Ok text,
     after_spawn w (cmd_argv c input files opts) (Cmd.input_encode input)).
Proof.
  intros Hparse Hchild Hout.
  rewrite (cmd_after_spawn h c input files fc fg w Hparse Hchild).
  unfold bind. rewrite check_exit_zero by reflexivity.
  unfold lift. now rewrite Hout.
Qed.

Lemma cmd_success_witness :
  parse (Some (Eval [("out", PStr "json")])) None = Ok ["--out=json"]
  /\ child (linux_host (0%Z, str_encode "{}", str_encode "warning"))
       (cmd_argv "eval" (Input_str "a: 1") None ["--out=json"])
       (Cmd.input_encode (Input_str "a: 1"))
     = (0%Z, str_encode "{}", str_encode "warning")
  /\ bytes_decode (str_encode "{}") = Ok "{}"
  /\ Cmd.cmd (linux_host (0%Z, str_encode "{}", str_encode "warning")) "eval"
       (Input_str "a: 1") None (Some (Eval [("out", PStr "json")])) None world0
     = (Ok "{}",
        {| spawned := [(["cue"; "eval"; "-"; "--out=json"], str_encode "a: 1")];
           printed := [] |}).
Proof.
  split; [reflexivity|]. split; [reflexivity|]. split; [reflexivity|].
  exact (@cmd_success (linux_host (0%Z, str_encode "{}", str_encode "warning"))
           "eval" (Input_str "a: 1") None (Some (Eval [("out", PStr "json")])) None
           world0 ["--out=json"] (str_encode "{}") (str_encode "warning") "{}"
           eq_refl eq_refl eq_refl).
Defined.

(** X15.  When the child ends with an exit code other than 0 and the error
    renders to a message, [cmd] raises the error carrying the argument
    vector, the exit code, the two captured streams and the payload; one
    child has been started and the message has been printed once. *)
Theorem cmd_failure (h : Host) (c : string) (input : Input)
  (files : option Files) (fc fg : option dataclass) (w : World)
  (opts : list string) (code : Z) (out err : bytes) (msg : string) :
  parse fc fg = Ok opts ->
  child h (cmd_argv c input files opts) (Cmd.input_encode input) = (code, out, err) ->
  (code =? 0)%Z = false ->
  CalledProcessError.__str__ h
    (CalledProcessError_data.mk (Cmd.input_encode input)
       (cmd_argv c input files opts) code out err) = Ok msg ->
  Cmd.cmd h c input files fc fg w
  = (raise (Raised_CalledProcessError
              (CalledProcessError_data.mk (Cmd.input_encode input)
                 (cmd_argv c input files opts) code out err)),
     after_print
       (after_spawn w (cmd_argv c input files opts) (Cmd.input_encode input))
       msg).
Proof.
  intros Hparse Hchild Hcode Hmsg.
  rewrite (cmd_after_spawn h c input files fc fg w Hparse Hchild).
  unfold bind at 1, CalledProcessError.check.
  cbn [CompletedProcess.returncode]. rewrite Hcode. cbn [negb].
  unfold bind, lift, CalledProcessError.print, CalledProcessError.__init__,
    CalledProcessError.__post_init__, Ok, bind, lift.
  cbn [CompletedProcess.args CompletedProcess.returncode
       CompletedProcess.stdout CompletedProcess.stderr].
  unfold Ok in Hmsg. rewrite Hmsg. reflexivity.
Qed.

Lemma cmd_failure_witness :
  parse None None = Ok []
  /\ child (linux_host (1%Z, [], str_encode "bad"))
       (cmd_argv "vet" (Input_str "a: 1") None []) (Cmd.input_encode (Input_str "a: 1"))
     = (1%Z, [], str_encode "bad")
  /\ (1 =? 0)%Z = false
  /\ Cmd.cmd (linux_host (1%Z, [], str_encode "bad")) "vet" (Input_str "a: 1")
       None None None world0
     = (raise (Raised_CalledProcessError
                 (CalledProcessError_data.mk (str_encode "a: 1")
                    ["cue"; "vet"; "-"] 1 [] (str_encode "bad"))),
        {| spawned := [(["cue"; "vet"; "-"], str_encode "a: 1")];
           printed := ["Subprocess cue vet - returned non-zero exit status 1."
                         ++ nl ++ tab ++ "input:" ++ tab ++ "a: 1"
                         ++ nl ++ tab ++ "error:" ++ tab ++ "bad"] |}).
Proof.
  split; [reflexivity|]. split; [reflexivity|]. split; [reflexivity|].
  exact (@cmd_failure (linux_host (1%Z, [], str_encode "bad")) "vet"
           (Input_str "a: 1") None None None world0 [] 1 [] (str_encode "bad")
           _ eq_refl eq_refl eq_refl eq_refl).
Defined.

(** X16.  When the output of the child is not well-formed UTF-8, [cmd]
    raises the decoding error whatever the exit code: for an exit code
    other than 0 the process error is not raised and nothing is printed. *)
Theorem cmd_undecodable_output (h : Host) (c : string) (input : Input)
  (files : option Files) (fc fg : option dataclass) (w : World)
  (opts : list string) (code : Z) (out err : bytes) :
  parse fc fg = Ok opts ->
  child h (cmd_argv c input files opts) (Cmd.input_encode input) = (code, out, err) ->
  decodable out = false ->
  Cmd.cmd h c input files fc fg w
  = (raise UnicodeDecodeError,
     after_spawn w (cmd_argv c input files opts) (Cmd.input_encode input)).
Proof.
  intros Hparse Hchild Hout.
  rewrite (cmd_after_spawn h c input files fc fg w Hparse Hchild).
  unfold bind at 1, CalledProcessError.check.
  cbn [CompletedProcess.returncode].
  destruct (code =? 0)%Z eqn:Hcode; cbn [negb].
  - unfold ret, lift, bytes_decode. unfold decodable in Hout. now rewrite Hout.
  - unfold bind, lift, CalledProcessError.print, CalledProcessError.__init__,
      CalledProcessError.__post_init__, Ok, bind, lift.
    cbn [CompletedProcess.args CompletedProcess.returncode
         CompletedProcess.stdout CompletedProcess.stderr].
    unfold CalledProcessError.__str__.
    cbn [CalledProcessError_data.return_code CalledProcessError_data.input
         CalledProcessError_data.error CalledProcessError_data.output
         CalledProcessError_data.args].
    rewrite Hcode, (labelled_undecodable "output:" out Hout).
    destruct (CalledProcessError.labelled "input:" _) as [e | i] eqn:Ei.
    + apply labelled_error in Ei. subst e. reflexivity.
    + cbn [rbind].
      destruct (CalledProcessError.labelled "error:" _) as [e | x] eqn:Ee.
      * apply labelled_error in Ee. subst e. reflexivity.
      * reflexivity.
Qed.

Lemma cmd_undecodable_output_witness :
  parse None None = Ok []
  /\ child (linux_host (2%Z, [x80], [])) (cmd_argv "eval" (Input_str "") None [])
       (Cmd.input_encode (Input_str ""))
     = (2%Z, [x80], [])
  /\ decodable [x80] = false
  /\ Cmd.cmd (linux_host (2%Z, [x80], [])) "eval" (Input_str "") None None None world0
     = (raise UnicodeDecodeError,
        {| spawned := [(["cue"; "eval"; "-"], [])]; printed := [] |}).
Proof.
  split; [reflexivity|]. split; [reflexivity|]. split; [reflexivity|].
  exact (@cmd_undecodable_output (linux_host (2%Z, [x80], [])) "eval"
           (Input_str "") None None None world0 [] 2 [x80] [] eq_refl eq_refl eq_refl).
Defined.

(** X18.  [eval], [def_] and [vet] start the child with the subcommands
    [eval], [def] and [vet]; the rest of the argument vector and the payload
    are the same for the three. *)
Theorem subcommand_wrappers (h : Host) (input : Input) (files : option Files)
  (fc fg : option dataclass) (w : World) (opts : list string) :
  parse fc fg = Ok opts ->
  spawned (snd (Cmd.eval h input files fc fg w))
  = (spawned w ++ [(cmd_argv "eval" input files opts, Cmd.input_encode input)])%list
  /\ spawned (snd (Cmd.def_ h input files fc fg w))
     = (spawned w ++ [(cmd_argv "def" input files opts, Cmd.input_encode input)])%list
  /\ spawned (snd (Cmd.vet h input files fc fg w))
     = (spawned w ++ [(cmd_argv "vet" input files opts, Cmd.input_encode input)])%list.
Proof.
  intros Hparse. unfold Cmd.eval, Cmd.def_, Cmd.vet.
  repeat split; apply cmd_spawned; exact Hparse.
Qed.

Lemma subcommand_wrappers_witness :
  parse None None = Ok []
  /\ spawned (snd (Cmd.def_ (linux_host (0%Z, [], [])) (Input_str "a: 1") None
                     None None world0))
     = [(["cue"; "def"; "-"], str_encode "a: 1")].
Proof.
  split; [reflexivity|].
  exact (proj1 (proj2 (@subcommand_wrappers (linux_host (0%Z, [], []))
                         (Input_str "a: 1") None None None world0 [] eq_refl))).
Defined.

(** X20.  For a value that is None, a string or a list the declared type
    plays no part: the encoding, tokens or error, is the same under any two
    declared types. *)
Theorem declared_type_ignored (flag : string) (t1 t2 : PyType) (v : PyVal) :
  none_str_or_list v = true ->
  _Flag.value_to_args flag t1 v = _Flag.value_to_args flag t2 v.
Proof.
  destruct v as [| b | s | l | r]; try discriminate; intros _.
  - now rewrite !value_to_args_None.
  - now rewrite !value_to_args_PStr.
  - now rewrite !value_to_args_PList.
Qed.

Lemma declared_type_ignored_witness :
  none_str_or_list (PList [PStr "a"; PStr "b"]) = true
  /\ _Flag.value_to_args "--all" Tbool (PList [PStr "a"; PStr "b"])
     = _Flag.value_to_args "--all" strListOpt (PList [PStr "a"; PStr "b"]).
Proof.
  split; [reflexivity|].
  exact (@declared_type_ignored "--all" Tbool strListOpt
           (PList [PStr "a"; PStr "b"]) eq_refl).
Defined.
